(** * CrudeOil-Forecaster: the scenario simulation engine

    A shallow embedding of [utils.py], [scenario_engine.py], the
    [/simulate] endpoint of [app.py] and the interactive loop of [test.py].

    - Python floats and numpy float64 scalars are binary64 numbers: Rocq's
      primitive [float] with its IEEE operations.
    - The module-level dict [SCENARIOS] keeps insertion order (its keys are
      listed in error messages): an association list.  The inner shock
      dicts are only looked up and mapped over: [gmap string float].
    - The engine's methods run in a state-and-exception monad over a store
      holding the mutable module global [SCENARIOS], the engine's [latest]
      snapshot and a journal of the calls that matter for the properties
      (shock overwrites, matrix builds, oracle invocations).
    - The fitted SARIMAX model, Python's [round] and float formatting are
      external: they are class parameters. *)

From Stdlib Require Import ZArith Floats.
From stdpp Require Import base option list strings gmap fin_maps.

Set Warnings "-inexact-float".

(* ===================================================================== *)
(** ** Python runtime: exceptions, ordered dicts, frames and series        *)
(* ===================================================================== *)

Module Py.

(** The exception classes that occur in the modelled code.  [Exception]
    stands for any other class a collaborator may raise. *)
Inductive exn : Type :=
| ValueError (msg : string)
| KeyError (key : string)
| IndexError (msg : string)
| Exception (cls : string) (msg : string)
| HTTPException (status_code : Z) (detail : string).

(** [repr] of a string without quotes, backslashes or control characters,
    which is what every key of the catalog is. *)
Definition repr_str (s : string) : string := "'" +:+ s +:+ "'".

(** [repr] of a list of such strings, as an f-string prints it. *)
Definition repr_list (l : list string) : string :=
  "[" +:+ String.concat ", " (map repr_str l) +:+ "]".

(** [str(e)] *)
Definition str_exn (e : exn) : string :=
  match e with
  | ValueError msg => msg
  | KeyError key => repr_str key
  | IndexError msg => msg
  | Exception _ msg => msg
  | HTTPException _ detail => detail
  end.

(** [isinstance(e, ValueError)] *)
Definition is_ValueError (e : exn) : bool :=
  match e with ValueError _ => true | _ => false end.

(** An insertion-ordered dict with string keys. *)
Definition dict (V : Type) : Type := list (string * V).

Fixpoint dict_get {V} (d : dict V) (k : string) : option V :=
  match d with
  | [] => None
  | (k', v) :: d' => if String.eqb k k' then Some v else dict_get d' k
  end.

(** [list(d.keys())] *)
Definition dict_keys {V} (d : dict V) : list string := map fst d.

(** [k in d] *)
Definition dict_mem {V} (d : dict V) (k : string) : bool :=
  match dict_get d k with Some _ => true | None => false end.

(** In-place update of the value stored under an existing key. *)
Fixpoint dict_alter {V} (f : V → V) (k : string) (d : dict V) : dict V :=
  match d with
  | [] => []
  | (k', v) :: d' =>
      if String.eqb k k' then (k', f v) :: d' else (k', v) :: dict_alter f k d'
  end.

(** A pandas DataFrame of floats: column labels and the rows in order. *)
Record DataFrame : Type := mkDataFrame {
  columns : list string;
  rows : list (list float)
}.

(** [pd.DataFrame(records, columns=cols)]: one row per record, holding the
    record's value for each requested column (NaN where it has none). *)
Definition DataFrame_of_records
    (records : list (gmap string float)) (cols : list string) : DataFrame :=
  {| columns := cols;
     rows := map (λ r : gmap string float, map (λ c, default nan (r !! c)) cols) records |}.

(** [series.iloc[i]] for an integer [i], negative indices counting from the
    end. *)
Definition iloc (s : list float) (i : Z) : exn + float :=
  let n := Z.of_nat (length s) in
  let j := if (i <? 0)%Z then (n + i)%Z else i in
  if ((0 <=? j)%Z && (j <? n)%Z)%bool then
    match s !! Z.to_nat j with
    | Some x => inr x
    | None => inl (IndexError "single positional indexer is out-of-bounds")
    end
  else inl (IndexError "single positional indexer is out-of-bounds").

(** [r] and then [k] on its value, stopping at the first exception. *)
Definition and_then {A C} (r : exn + A) (k : A → exn + C) : exn + C :=
  match r with
  | inl e => inl e
  | inr a => k a
  end.

(** Position of a column label among the labels of a frame. *)
Fixpoint index_of (col : string) (cols : list string) : option nat :=
  match cols with
  | [] => None
  | c :: cols' => if String.eqb col c then Some 0%nat else S <$> index_of col cols'
  end.

(** [df[col]] on a frame whose column labels are distinct, which is what
    [read_csv] produces: the column as a series, or [KeyError]. *)
Definition df_getitem (df : DataFrame) (col : string) : exn + list float :=
  match index_of col (columns df) with
  | Some j => inr (map (λ row : list float, default nan (row !! j)) (rows df))
  | None => inl (KeyError col)
  end.

(** [d[k] = v]: the value is replaced in place, a new key goes last. *)
Fixpoint dict_set {V} (d : dict V) (k : string) (v : V) : dict V :=
  match d with
  | [] => [(k, v)]
  | (k', v') :: d' =>
      if String.eqb k k' then (k', v) :: d' else (k', v') :: dict_set d' k v
  end.

End Py.
Export Py.

(* ===================================================================== *)
(** ** utils.py                                                           *)
(* ===================================================================== *)

(** Python's [round(x, ndigits)] and the format specs [:.2f], [:.1f]. *)
Class Builtins : Type := {
  round : float → Z → float;
  format_fixed : nat → float → string
}.

Module utils.

(** The dictionary built by [get_latest_values]: always these twelve keys. *)
Record LatestValues : Type := mkLatest {
  brent_price : float;
  inventories : float;
  industrial_prod : float;
  dollar_index : float;
  fed_funds : float;
  vix : float;
  brent_return : float;
  dollar_return : float;
  indpro_return : float;
  inventory_pct : float;
  fed_funds_diff : float;
  vix_diff : float
}.

(** The dictionary returned by [format_price_change]. *)
Record PriceChange : Type := mkPriceChange {
  baseline : float;
  shocked : float;
  difference : float;
  pct_change : float;
  arrow : string;
  formatted : string
}.

Definition chart_up : string := "📈".
Definition chart_down : string := "📉".

Section format_price_change.
Context {B : Builtins}.

Definition format_price_change (baseline shocked : float) : PriceChange :=
  let diff := (shocked - baseline)%float in
  let pct := ((diff / baseline) * 100)%float in
  let arrow := if (0 <? diff)%float then chart_up else chart_down in
  let sign := if (0 <? diff)%float then "+" else "" in
  {| baseline := round baseline 2;
     shocked := round shocked 2;
     difference := round diff 2;
     pct_change := round pct 2;
     arrow := arrow;
     formatted :=
       arrow +:+ " " +:+ sign +:+ "$" +:+ format_fixed 2 diff +:+ "/barrel ("
             +:+ sign +:+ format_fixed 1 pct +:+ "%)" |}.
End format_price_change.

(** [df[col].iloc[-1]] *)
Definition latest_of (df : DataFrame) (col : string) : exn + float :=
  and_then (df_getitem df col) (λ series, iloc series (-1)).

Notation "'try!' x := r 'in' k" := (and_then r (λ x, k))
  (at level 10, x name, r at level 100, k at level 200, only parsing).

Definition get_latest_values (weekly_data transformed_data : DataFrame) : exn + LatestValues :=
  try! brent_price := latest_of weekly_data "brent" in
  try! inventories := latest_of weekly_data "inventories" in
  try! industrial_prod := latest_of weekly_data "industrial_prod" in
  try! dollar_index := latest_of weekly_data "dollar_index" in
  try! fed_funds := latest_of weekly_data "fed_funds" in
  try! vix := latest_of weekly_data "vix" in
  try! brent_return := latest_of transformed_data "brent_return" in
  try! dollar_return := latest_of transformed_data "dollar_return" in
  try! indpro_return := latest_of transformed_data "indpro_return" in
  try! inventory_pct := latest_of transformed_data "inventory_pct" in
  try! fed_funds_diff := latest_of transformed_data "fed_funds_diff" in
  try! vix_diff := latest_of transformed_data "vix_diff" in
  inr {| brent_price := brent_price;
         inventories := inventories;
         industrial_prod := industrial_prod;
         dollar_index := dollar_index;
         fed_funds := fed_funds;
         vix := vix;
         brent_return := brent_return;
         dollar_return := dollar_return;
         indpro_return := indpro_return;
         inventory_pct := inventory_pct;
         fed_funds_diff := fed_funds_diff;
         vix_diff := vix_diff |}.

End utils.

(* ===================================================================== *)
(** ** scenario_engine.py                                                 *)
(* ===================================================================== *)

(** What [self.model.get_forecast(steps=..., exog=...)] returns: the point
    forecasts and the confidence intervals as a function of [alpha]. *)
Record PredictionResults : Type := mkPrediction {
  predicted_mean : list float;
  conf_int : float → list (float * float)
}.

(** The fitted model loaded at start-up.  Its state is fixed, so a call is a
    function of its arguments; it may raise. *)
Class ForecastModel : Type := {
  get_forecast : Z → DataFrame → exn + PredictionResults
}.

Module scenario_engine.
Import utils.

Record Scenario : Type := mkScenario {
  name : string;
  description : string;
  shocks : gmap string float
}.

Definition SCENARIOS : dict Scenario := [
  ("opec_cut",
   {| name := "OPEC Production Cut (10%)";
      description := "OPEC announces a coordinated 10% production cut. Supply tightens, inventories draw down, risk sentiment improves.";
      shocks := <["inventory_pct" := (-0.05)%float]>
                (<["vix_diff" := (-2.0)%float]>
                (<["dollar_return" := (-0.002)%float]>
                (<["indpro_return" := 0.0%float]>
                (<["fed_funds_diff" := 0.0%float]> ∅)))) |});
  ("global_recession",
   {| name := "Global Recession";
      description := "A global recession takes hold. Industrial activity contracts sharply, demand for oil collapses, financial markets enter panic mode.";
      shocks := <["indpro_return" := (-0.02)%float]>
                (<["vix_diff" := 8.0%float]>
                (<["dollar_return" := 0.005%float]>
                (<["inventory_pct" := 0.03%float]>
                (<["fed_funds_diff" := 0.0%float]> ∅)))) |});
  ("rate_hike",
   {| name := "Aggressive Fed Rate Hike (+75bps)";
      description := "The Federal Reserve raises rates aggressively by 75 basis points. Economic growth slows, dollar strengthens, oil demand weakens.";
      shocks := <["dollar_return" := 0.008%float]>
                (<["vix_diff" := 3.0%float]>
                (<["indpro_return" := (-0.005)%float]>
                (<["fed_funds_diff" := 0.75%float]>
                (<["inventory_pct" := 0.0%float]> ∅)))) |});
  ("geopolitical_tension",
   {| name := "Major Geopolitical Tension (Supply Disruption)";
      description := "Significant geopolitical conflict disrupts oil supply routes. Markets panic, safe havens rally, supply uncertainty drives prices up.";
      shocks := <["inventory_pct" := (-0.08)%float]>
                (<["vix_diff" := 12.0%float]>
                (<["dollar_return" := 0.003%float]>
                (<["indpro_return" := 0.0%float]>
                (<["fed_funds_diff" := 0.0%float]> ∅)))) |});
  ("demand_boom",
   {| name := "Global Demand Boom (China Reopening)";
      description := "A major emerging market (e.g. China) reopens strongly after a period of restriction. Industrial demand surges globally.";
      shocks := <["indpro_return" := 0.015%float]>
                (<["inventory_pct" := (-0.04)%float]>
                (<["vix_diff" := (-3.0)%float]>
                (<["dollar_return" := (-0.003)%float]>
                (<["fed_funds_diff" := 0.0%float]> ∅)))) |})
].

(** The calls a run can make that the properties talk about, in the order
    they happen. *)
Inductive event : Type :=
| SetShocks (key : string) (new_shocks : gmap string float)
| BuildExog (shocks : gmap string float) (forecast_weeks : Z)
| GetForecast (steps : Z) (exog : DataFrame).

(** The state shared by every caller of the process: the module global
    [SCENARIOS] as it currently is, the engine's [self.latest], and the
    journal of calls made so far. *)
Record Store : Type := mkStore {
  st_SCENARIOS : dict Scenario;
  st_latest : LatestValues;
  st_journal : list event
}.

Definition M (A : Type) : Type := Store → (exn + A) * Store.

Definition ret {A} (a : A) : M A := λ st, (inr a, st).

Definition bind {A B} (m : M A) (k : A → M B) : M B :=
  λ st, match m st with
        | (inl e, st') => (inl e, st')
        | (inr a, st') => k a st'
        end.

Definition raise {A} (e : exn) : M A := λ st, (inl e, st).

Definition lift {A} (r : exn + A) : M A := λ st, (r, st).

Definition read : M Store := λ st, (inr st, st).

Definition record_call (ev : event) : M unit :=
  λ st, (inr tt, {| st_SCENARIOS := st_SCENARIOS st;
                    st_latest := st_latest st;
                    st_journal := st_journal st ++ [ev] |}).

(** [try: body  except Exception as e: handler(e)] *)
Definition try_except {A} (body : M A) (handler : exn → M A) : M A :=
  λ st, match body st with
        | (inl e, st') => handler e st'
        | (inr a, st') => (inr a, st')
        end.

Notation "x <- c ;; k" := (bind c (λ x, k))
  (at level 100, c at next level, right associativity).
Notation "c ;;; k" := (bind c (λ _, k))
  (at level 100, right associativity).

(** [for x in xs: acc = body(acc, x)], stopping at the first exception. *)
Fixpoint for_each {A B} (body : A → B → M A) (acc : A) (xs : list B) : M A :=
  match xs with
  | [] => ret acc
  | x :: xs' => acc' <- body acc x ;; for_each body acc' xs'
  end.

(** [d[key]] on a plain dict *)
Definition getitem (d : gmap string float) (key : string) : M float :=
  match d !! key with
  | Some v => ret v
  | None => raise (KeyError key)
  end.

(** [SCENARIOS[key]["shocks"] = new_shocks] *)
Definition set_shocks (key : string) (new_shocks : gmap string float) : M unit :=
  λ st, match dict_get (st_SCENARIOS st) key with
        | None => (inl (KeyError key), st)
        | Some _ =>
            (inr tt,
             {| st_SCENARIOS :=
                  dict_alter (λ sc, {| name := name sc;
                                       description := description sc;
                                       shocks := new_shocks |})
                             key (st_SCENARIOS st);
                st_latest := st_latest st;
                st_journal := st_journal st ++ [SetShocks key new_shocks] |})
        end.

(** [self.exog_cols], assigned once in [__init__]. *)
Definition exog_cols : list string :=
  ["dollar_return"; "indpro_return"; "inventory_pct"; "fed_funds_diff"; "vix_diff"].

Record BaselineResult : Type := mkBaselineResult {
  b_type : string;
  b_forecast_mean : list float;
  b_conf_int : list (float * float);
  b_weeks : Z;
  b_current_price : float
}.

Record ScenarioResult : Type := mkScenarioResult {
  scenario_key : string;
  scenario_name : string;
  scenario_desc : string;
  r_shocks : gmap string float;
  current_price : float;
  baseline_forecast : list float;
  shocked_forecast : list float;
  shocked_conf_int : list (float * float);
  impact_week1 : PriceChange;
  impact_week12 : PriceChange;
  weeks : Z
}.

Section ScenarioEngine.
Context {B : Builtins} {F : ForecastModel}.

Definition _build_exog_matrix
    (shocks : gmap string float) (forecast_weeks : Z) : M DataFrame :=
  record_call (BuildExog shocks forecast_weeks) ;;;
  st <- read ;;
  let latest := st_latest st in
  let base : gmap string float :=
    <["dollar_return" := dollar_return latest]>
    (<["indpro_return" := indpro_return latest]>
    (<["inventory_pct" := inventory_pct latest]>
    (<["fed_funds_diff" := fed_funds_diff latest]>
    (<["vix_diff" := vix_diff latest]> ∅)))) in
  shocked <- for_each
               (λ (shocked : gmap string float) col,
                  b <- getitem base col ;;
                  ret (<[col := (b + default 0.0%float (shocks !! col))%float]> shocked))
               ∅ exog_cols ;;
  ret (DataFrame_of_records (replicate (Z.to_nat forecast_weeks) shocked) exog_cols).

(** [self.model.get_forecast(steps=steps, exog=exog)] *)
Definition model_get_forecast (steps : Z) (exog : DataFrame) : M PredictionResults :=
  record_call (GetForecast steps exog) ;;;
  lift (get_forecast steps exog).

Definition run_baseline (forecast_weeks : Z) : M BaselineResult :=
  let zero_shocks : gmap string float :=
    list_to_map (map (λ col, (col, 0.0%float)) exog_cols) in
  exog <- _build_exog_matrix zero_shocks forecast_weeks ;;
  forecast <- model_get_forecast forecast_weeks exog ;;
  let mean_forecast := predicted_mean forecast in
  let conf := conf_int forecast 0.05%float in
  st <- read ;;
  ret {| b_type := "baseline";
         b_forecast_mean := mean_forecast;
         b_conf_int := conf;
         b_weeks := forecast_weeks;
         b_current_price := brent_price (st_latest st) |}.

(** The [print] calls of the source write to stdout only and are left
    out. *)
Definition run_scenario (scenario_key : string) (forecast_weeks : Z) : M ScenarioResult :=
  st <- read ;;
  match dict_get (st_SCENARIOS st) scenario_key with
  | None =>
      let available := dict_keys (st_SCENARIOS st) in
      raise (ValueError ("Unknown scenario '" +:+ scenario_key +:+ "'. "
                         +:+ "Available: " +:+ repr_list available))
  | Some scenario =>
      let shocks := shocks scenario in
      baseline_result <- run_baseline forecast_weeks ;;
      let baseline_forecast := b_forecast_mean baseline_result in
      shocked_exog <- _build_exog_matrix shocks forecast_weeks ;;
      shocked_forecast_obj <- model_get_forecast forecast_weeks shocked_exog ;;
      let shocked_forecast := predicted_mean shocked_forecast_obj in
      let shocked_conf_int := conf_int shocked_forecast_obj 0.05%float in
      baseline_end <- lift (iloc baseline_forecast (-1)) ;;
      shocked_end <- lift (iloc shocked_forecast (-1)) ;;
      let impact := format_price_change baseline_end shocked_end in
      baseline_w1 <- lift (iloc baseline_forecast 0) ;;
      shocked_w1 <- lift (iloc shocked_forecast 0) ;;
      let impact_w1 := format_price_change baseline_w1 shocked_w1 in
      st' <- read ;;
      ret {| scenario_key := scenario_key;
             scenario_name := name scenario;
             scenario_desc := description scenario;
             r_shocks := shocks;
             current_price := brent_price (st_latest st');
             baseline_forecast := baseline_forecast;
             shocked_forecast := shocked_forecast;
             shocked_conf_int := shocked_conf_int;
             impact_week1 := impact_w1;
             impact_week12 := impact;
             weeks := forecast_weeks |}
  end.
End ScenarioEngine.

End scenario_engine.

(* ===================================================================== *)
(** ** llm_explainer.py: the parser's output                              *)
(* ===================================================================== *)

(** The fields of the dict returned by [parse_user_query] that the callers
    read.  [scenario_key] is always present; the other two are read with
    [.get] and a default. *)
Record ParsedQuery : Type := mkParsed {
  p_scenario_key : string;
  p_magnitude_modifier : option float;
  p_forecast_weeks : option Z
}.

(** [explainer.parse_user_query(query)]: an LLM call, which may raise. *)
Class Explainer : Type := {
  parse_user_query : string → exn + ParsedQuery
}.

(** [round] applied to a Python float (a value passed through [float(...)]),
    and pandas' [Series.mean]. *)
Class Numerics : Type := {
  float_round : float → Z → float;
  series_mean : list float → float
}.

(** The validation that [parse_user_query] runs on the decoded answer. *)
Module llm_explainer.

Set Warnings "-register-all".

(** What [json.loads] returns. *)
Inductive json : Type :=
| JNull
| JBool (b : bool)
| JInt (n : Z)
| JFloat (x : float)
| JStr (s : string)
| JList (items : list json)
| JObj (members : dict json).

Definition AVAILABLE_SCENARIOS : dict string := [
  ("opec_cut", "OPEC or major producer cutting oil supply");
  ("global_recession", "Global economic recession reducing demand");
  ("rate_hike", "Central bank interest rate increases");
  ("geopolitical_tension", "Geopolitical conflict disrupting supply routes");
  ("demand_boom", "Strong global demand surge")
].

(** [type(v).__name__] *)
Definition type_name (v : json) : string :=
  match v with
  | JNull => "NoneType"
  | JBool _ => "bool"
  | JInt _ => "int"
  | JFloat _ => "float"
  | JStr _ => "str"
  | JList _ => "list"
  | JObj _ => "dict"
  end.

(** [bool(v)] *)
Definition truthy (v : json) : bool :=
  match v with
  | JNull => false
  | JBool b => b
  | JInt n => negb (n =? 0)%Z
  | JFloat x => negb (x =? 0)%float
  | JStr s => negb (String.eqb s "")
  | JList items => match items with [] => false | _ => true end
  | JObj members => match members with [] => false | _ => true end
  end.

(** [v in AVAILABLE_SCENARIOS]: lists and dicts cannot be hashed; a value
    that is not a string equals none of the keys. *)
Definition in_available (v : json) : exn + bool :=
  match v with
  | JStr s => inr (dict_mem AVAILABLE_SCENARIOS s)
  | JList _ | JObj _ =>
      inl (Exception "TypeError" ("unhashable type: '" +:+ type_name v +:+ "'"))
  | _ => inr false
  end.

(** [parsed.get(key)], which only a dict has. *)
Definition get (parsed : json) (key : string) : exn + json :=
  match parsed with
  | JObj members => inr (default JNull (dict_get members key))
  | _ => inl (Exception "AttributeError"
                ("'" +:+ type_name parsed +:+ "' object has no attribute 'get'"))
  end.

(** [parsed[key] = v] on the dict that [get] has just accepted. *)
Definition setitem (parsed : json) (key : string) (v : json) : json :=
  match parsed with
  | JObj members => JObj (dict_set members key v)
  | _ => parsed
  end.

(** The lines of [parse_user_query] from "# Validate" to [return parsed]. *)
Definition validate (user_query : string) (parsed : json) : exn + json :=
  and_then (get parsed "scenario_key") (λ scenario_key,
  and_then (in_available scenario_key) (λ known,
  let parsed :=
    if known then parsed
    else setitem (setitem (setitem parsed
           "scenario_key" (JStr "geopolitical_tension"))
           "confidence" (JStr "low"))
           "scenario_context" (JStr user_query) in
  and_then (get parsed "scenario_context") (λ scenario_context,
  inr (if truthy scenario_context then parsed
       else setitem parsed "scenario_context" (JStr user_query))))).

(** The dict returned when the answer could not be decoded. *)
Definition fallback (user_query : string) : json :=
  JObj [ ("scenario_key", JStr "geopolitical_tension");
         ("magnitude_modifier", JFloat 1.0);
         ("confidence", JStr "low");
         ("reasoning", JStr "Parse failed — using default");
         ("scenario_context", JStr user_query);
         ("specific_entity", JNull);
         ("forecast_weeks", JInt 12) ].

(** [isinstance(e, (json.JSONDecodeError, KeyError))] *)
Definition is_decode_error (e : exn) : bool :=
  match e with
  | KeyError _ => true
  | Exception cls _ => String.eqb cls "JSONDecodeError"
  | _ => false
  end.

(** The chat completion, the removal of markdown fences and [json.loads]:
    the decoded answer, or the exception one of them raised, a
    [json.JSONDecodeError] being [Exception "JSONDecodeError" msg]. *)
Class Completion : Type := {
  decoded_answer : string → exn + json
}.

Definition parse_user_query {C : Completion} (user_query : string) : exn + json :=
  match and_then (decoded_answer user_query) (validate user_query) with
  | inr parsed => inr parsed
  | inl e => if is_decode_error e then inr (fallback user_query) else inl e
  end.

End llm_explainer.

(* ===================================================================== *)
(** ** app.py: POST /simulate                                             *)
(* ===================================================================== *)

Module app.
Import utils scenario_engine.

Record ScenarioRequest : Type := mkRequest {
  query : string;
  forecast_weeks : Z
}.

(** What steps 1 to 3 of the endpoint hand to the explanation and response
    steps: the engine's result and the shocks that were applied. *)
Record Simulation : Type := mkSimulation {
  result : ScenarioResult;
  shocks_applied : gmap string float
}.

(** [SCENARIOS[scenario_key]["shocks"]] read as an expression. *)
Definition get_shocks (scenario_key : string) : M (gmap string float) :=
  st <- read ;;
  match dict_get (st_SCENARIOS st) scenario_key with
  | Some scenario => ret (shocks scenario)
  | None => raise (KeyError scenario_key)
  end.

(** [{k: v * modifier for k, v in shocks.items()}] *)
Definition modified_shocks (modifier : float) (shocks : gmap string float)
    : gmap string float :=
  (λ v, v * modifier)%float <$> shocks.

Section run_simulation.
Context {B : Builtins} {F : ForecastModel} {E : Explainer}.

(** Steps 1 to 3 of [run_simulation], inside its [try].  Steps 4 to 6 (the
    LLM explanation and the response object) only read [result] and
    [modified_shocks]. *)
Definition run_simulation_body (request : ScenarioRequest) : M Simulation :=
  parsed <- lift (parse_user_query (query request)) ;;
  let scenario_key := p_scenario_key parsed in
  let modifier := default 1.0%float (p_magnitude_modifier parsed) in
  let weeks := default (forecast_weeks request) (p_forecast_weeks parsed) in
  current <- get_shocks scenario_key ;;
  let modified_shocks := modified_shocks modifier current in
  original_shocks <- get_shocks scenario_key ;;
  set_shocks scenario_key modified_shocks ;;;
  result <- run_scenario scenario_key weeks ;;
  set_shocks scenario_key original_shocks ;;;
  ret {| result := result; shocks_applied := modified_shocks |}.

Definition run_simulation (request : ScenarioRequest) : M Simulation :=
  try_except (run_simulation_body request)
    (λ e, if is_ValueError e
          then raise (HTTPException 400 (str_exn e))
          else raise (HTTPException 500 (str_exn e))).
End run_simulation.

(** One entry of the answer of [GET /scenarios]. *)
Record ScenarioInfo : Type := mkScenarioInfo {
  info_key : string;
  info_name : string;
  info_description : string
}.

Definition list_scenarios : M (list ScenarioInfo) :=
  st <- read ;;
  ret (map (λ entry : string * Scenario,
              {| info_key := entry.1;
                 info_name := name entry.2;
                 info_description := description entry.2 |})
           (st_SCENARIOS st)).

Record WeeklyForecast : Type := mkWeeklyForecast {
  week : Z;
  wf_baseline : float;
  wf_scenario : float;
  wf_change : float
}.

(** The answer of [POST /simulate-direct]. *)
Record DirectSimulation : Type := mkDirectSimulation {
  ds_scenario_name : string;
  ds_current_price : float;
  ds_impact_week1 : PriceChange;
  ds_impact_week12 : PriceChange;
  ds_baseline_mean : float;
  ds_scenario_mean : float
}.

Section responses.
Context {B : Builtins} {F : ForecastModel} {N : Numerics}.

(** Step 5 of [run_simulation]: the list [weekly], one entry per pair of
    [zip(baseline_forecast, shocked_forecast)], numbered from 1. *)
Definition weekly_forecasts (result : ScenarioResult) : list WeeklyForecast :=
  imap (λ i (pair : float * float),
          {| week := Z.of_nat i + 1;
             wf_baseline := float_round pair.1 2;
             wf_scenario := float_round pair.2 2;
             wf_change := float_round (pair.2 - pair.1)%float 2 |})
       (zip (baseline_forecast result) (shocked_forecast result)).

Definition run_direct_simulation (scenario_key : string) (forecast_weeks : Z)
    : M DirectSimulation :=
  st <- read ;;
  if negb (dict_mem (st_SCENARIOS st) scenario_key) then
    raise (HTTPException 400
             ("Unknown scenario. Available: " +:+ repr_list (dict_keys (st_SCENARIOS st))))
  else
    result <- run_scenario scenario_key forecast_weeks ;;
    ret {| ds_scenario_name := scenario_name result;
           ds_current_price := float_round (current_price result) 2;
           ds_impact_week1 := impact_week1 result;
           ds_impact_week12 := impact_week12 result;
           ds_baseline_mean := float_round (series_mean (baseline_forecast result)) 2;
           ds_scenario_mean := float_round (series_mean (shocked_forecast result)) 2 |}.
End responses.

End app.

(* ===================================================================== *)
(** ** test.py: the interactive loop                                      *)
(* ===================================================================== *)

Module test.
Import utils scenario_engine.

(** [for var in d: d[var] *= modifier], run on the shocks of the deep copy:
    the loop's writes go to that fresh dict, which is the value threaded
    through the fold, and not to the dict the catalog holds. *)
Definition scale_in_place (modifier : float) (d : gmap string float) : gmap string float :=
  foldl (λ (d : gmap string float) var, alter (λ v, v * modifier)%float var d)
        d (map fst (map_to_list d)).

Section run_interactive.
Context {B : Builtins} {F : ForecastModel}.

(** One pass of the loop of [run_interactive], from step 2 to the restore,
    for a query that was parsed and confirmed.  [print_results] writes to
    stdout only. *)
Definition run_interactive_body (parsed : ParsedQuery) : M ScenarioResult :=
  let scenario_key := p_scenario_key parsed in
  let modifier := default 1.0%float (p_magnitude_modifier parsed) in
  copied <- app.get_shocks scenario_key ;;
  let modified_scenario_shocks := scale_in_place modifier copied in
  original_shocks <- app.get_shocks scenario_key ;;
  set_shocks scenario_key modified_scenario_shocks ;;;
  let forecast_weeks := default 12%Z (p_forecast_weeks parsed) in
  result <- run_scenario scenario_key forecast_weeks ;;
  set_shocks scenario_key original_shocks ;;;
  ret result.
End run_interactive.

End test.

(* ===================================================================== *)
(** ** Concrete collaborators for running the model                       *)
(* ===================================================================== *)

(** numpy's rounding of a float64 scalar, which is what [round] reaches for
    the values read out of a pandas Series: multiply by [10**decimals], round
    to the nearest integer (ties to even), divide again. *)
Module numpy.

Definition two52 : float := 4503599627370496%float.

Definition rint (x : float) : float :=
  if (abs x <? two52)%float then
    let r := ((abs x + two52) - two52)%float in
    if get_sign x then (- r)%float else r
  else x.

Fixpoint power10 (decimals : nat) : float :=
  match decimals with
  | O => 1%float
  | S d => (10 * power10 d)%float
  end.

Definition round_ (x : float) (decimals : Z) : float :=
  let p := power10 (Z.to_nat decimals) in
  (rint (x * p) / p)%float.

End numpy.

Module Stub.
Import utils scenario_engine.

(** The formatting stub only tells the precision it was asked for. *)
Definition stub_builtins : Builtins :=
  {| round := numpy.round_;
     format_fixed := λ digits _, if Nat.eqb digits 2 then "x.xx" else "x.x" |}.

(** A deterministic stand-in for the fitted model: week [i]'s forecast is
    75 plus the sum of that row's drivers; one forecast per row. *)
Definition stub_model : ForecastModel :=
  {| get_forecast := λ steps exog,
       let mean := map (λ row, foldl (λ a x, a + x)%float 75%float row) (rows exog) in
       inr {| predicted_mean := mean;
              conf_int := λ alpha, map (λ m, (m - 1, m + 1)%float) mean |} |}.

(** A model that refuses every call. *)
Definition failing_model : ForecastModel :=
  {| get_forecast := λ steps exog, inl (Exception "RuntimeError" "model unavailable") |}.

Definition stub_explainer (parsed : ParsedQuery) : Explainer :=
  {| parse_user_query := λ _, inr parsed |}.

Definition latest0 : LatestValues :=
  {| brent_price := 75%float; inventories := 430000%float;
     industrial_prod := 103%float; dollar_index := 120%float;
     fed_funds := 5.25%float; vix := 16%float;
     brent_return := 0.01%float; dollar_return := 0.001%float;
     indpro_return := 0.0005%float; inventory_pct := (-0.01)%float;
     fed_funds_diff := 0%float; vix_diff := 0.5%float |}.

Definition store0 : Store :=
  {| st_SCENARIOS := SCENARIOS; st_latest := latest0; st_journal := [] |}.

(** A parsed query asking for the OPEC cut at twice its magnitude over two
    weeks, and the request it came from. *)
Definition double_opec : ParsedQuery :=
  {| p_scenario_key := "opec_cut";
     p_magnitude_modifier := Some 2%float;
     p_forecast_weeks := Some 2%Z |}.

Definition request0 : app.ScenarioRequest :=
  {| app.query := "What if OPEC halts all exports?"; app.forecast_weeks := 12 |}.

Definition opec_shocks : gmap string float :=
  <["inventory_pct" := (-0.05)%float]>
  (<["vix_diff" := (-2.0)%float]>
  (<["dollar_return" := (-0.002)%float]>
  (<["indpro_return" := 0.0%float]>
  (<["fed_funds_diff" := 0.0%float]> ∅)))).

(** A catalog with one more scenario, which shocks nothing. *)
Definition no_op : Scenario :=
  {| name := "No shock";
     description := "Current conditions carried forward.";
     shocks := <["vix_diff" := 0.0%float]> (<["dollar_return" := 0.0%float]> ∅) |}.

Definition no_op_store : Store :=
  {| st_SCENARIOS := SCENARIOS ++ [("no_op", no_op)];
     st_latest := latest0;
     st_journal := [] |}.

(** The OPEC cut at its stored magnitude over two weeks, and a query whose
    key is in no catalog. *)
Definition plain_opec : ParsedQuery :=
  {| p_scenario_key := "opec_cut";
     p_magnitude_modifier := None;
     p_forecast_weeks := Some 2%Z |}.


(** The OPEC cut asked for at magnitude zero. *)
Definition silent_opec : ParsedQuery :=
  {| p_scenario_key := "opec_cut";
     p_magnitude_modifier := Some 0.0%float;
     p_forecast_weeks := Some 2%Z |}.

(** Stand-ins for [round] on Python floats and for [Series.mean]. *)
Fixpoint float_of_nat (n : nat) : float :=
  match n with
  | O => 0%float
  | S k => (float_of_nat k + 1)%float
  end.

Definition stub_numerics : Numerics :=
  {| float_round := numpy.round_;
     series_mean := λ s, (foldl (λ a x, a + x)%float 0%float s / float_of_nat (length s))%float |}.

(** Two weeks of raw data and of transformed data. *)
Definition weekly0 : DataFrame :=
  {| columns := ["brent"; "inventories"; "industrial_prod"; "dollar_index"; "fed_funds"; "vix"];
     rows := [ [74; 431000; 102.5; 119; 5.25; 17]%float;
               [75; 430000; 103; 120; 5.25; 16]%float ] |}.

Definition transformed0 : DataFrame :=
  {| columns := ["brent_return"; "dollar_return"; "indpro_return"; "inventory_pct";
                 "fed_funds_diff"; "vix_diff"];
     rows := [ [0.02; 0.002; 0.001; 0.01; 0.25; -1]%float;
               [0.01; 0.001; 0.0005; -0.01; 0; 0.5]%float ] |}.

(** A chat completion that always answers with the given JSON value. *)
Definition stub_completion (answer : exn + llm_explainer.json) : llm_explainer.Completion :=
  {| llm_explainer.decoded_answer := λ _, answer |}.

End Stub.

(* ===================================================================== *)
(** ** Vocabulary of the statements                                       *)
(* ===================================================================== *)

Module Spec.
Import utils scenario_engine.

(** The store after one more journal entry. *)
Definition logged (st : Store) (ev : event) : Store :=
  {| st_SCENARIOS := st_SCENARIOS st;
     st_latest := st_latest st;
     st_journal := st_journal st ++ [ev] |}.

(** The driver vector the builder is expected to repeat: for each of the
    five drivers in column order, the latest value plus the shock, the
    shock being 0.0 when the mapping has none. *)
Definition shocked_row (latest : LatestValues) (shocks : gmap string float) : list float :=
  [ (dollar_return latest + default 0.0 (shocks !! "dollar_return"))%float;
    (indpro_return latest + default 0.0 (shocks !! "indpro_return"))%float;
    (inventory_pct latest + default 0.0 (shocks !! "inventory_pct"))%float;
    (fed_funds_diff latest + default 0.0 (shocks !! "fed_funds_diff"))%float;
    (vix_diff latest + default 0.0 (shocks !! "vix_diff"))%float ].

Definition exog_frame (latest : LatestValues) (shocks : gmap string float)
    (forecast_weeks : Z) : DataFrame :=
  {| columns := exog_cols;
     rows := replicate (Z.to_nat forecast_weeks) (shocked_row latest shocks) |}.

(** The zero-shock mapping of [run_baseline]. *)
Definition zero_shocks : gmap string float :=
  list_to_map (map (λ col, (col, 0.0%float)) exog_cols).

(** The store after the two calls of [run_baseline]. *)
Definition after_baseline (st : Store) (weeks : Z) : Store :=
  logged (logged st (BuildExog zero_shocks weeks))
         (GetForecast weeks (exog_frame (st_latest st) zero_shocks weeks)).

(** The store after the four calls of a complete [run_scenario]. *)
Definition after_scenario (st : Store) (shocks : gmap string float) (weeks : Z) : Store :=
  logged (logged (after_baseline st weeks) (BuildExog shocks weeks))
         (GetForecast weeks (exog_frame (st_latest st) shocks weeks)).

Definition is_SetShocks (ev : event) : Prop :=
  match ev with SetShocks _ _ => True | _ => False end.

(** [st'] is [st] with more journal entries, none of them an overwrite of a
    scenario's shocks: catalog and snapshot are the same at every point. *)
Definition untouched (st st' : Store) : Prop :=
  st_SCENARIOS st' = st_SCENARIOS st ∧
  st_latest st' = st_latest st ∧
  ∃ evs, st_journal st' = st_journal st ++ evs ∧ Forall (λ ev, ¬ is_SetShocks ev) evs.

(** A computation that never writes the catalog or the snapshot. *)
Definition read_only {A} (m : M A) : Prop := ∀ st, untouched st (m st).2.

(** What the core assumes of the forecast oracle: on a matrix with one row
    per requested step it answers, with one forecast per step. *)
Definition oracle_contract (model : ForecastModel) : Prop :=
  ∀ (steps : Z) (exog : DataFrame),
    (1 ≤ steps)%Z →
    length (rows exog) = Z.to_nat steps →
    ∃ p, get_forecast steps exog = inr p ∧ length (predicted_mean p) = Z.to_nat steps.

(** The message of the [ValueError] raised for a key outside the catalog. *)
Definition unknown_scenario_message (scenario_key : string) : string :=
  "Unknown scenario '" +:+ scenario_key +:+
  "'. Available: ['opec_cut', 'global_recession', 'rate_hike', 'geopolitical_tension', 'demand_boom']".

(** No value of the mapping is NaN or an infinity. *)
Definition finite_shocks (shocks : gmap string float) : Prop :=
  map_Forall (λ _ v, is_finite v = true) shocks.

(** The store after [SCENARIOS[key]["shocks"] = new_shocks] went through. *)
Definition overwritten (st : Store) (key : string) (new_shocks : gmap string float) : Store :=
  {| st_SCENARIOS :=
       dict_alter (λ sc, {| name := name sc;
                            description := description sc;
                            shocks := new_shocks |})
                  key (st_SCENARIOS st);
     st_latest := st_latest st;
     st_journal := st_journal st ++ [SetShocks key new_shocks] |}.

(** What [GET /scenarios] shows of a catalog. *)
Definition listing (catalog : dict Scenario) : list app.ScenarioInfo :=
  map (λ entry : string * Scenario,
         {| app.info_key := entry.1;
            app.info_name := name entry.2;
            app.info_description := description entry.2 |})
      catalog.

(** A computation after which [GET /scenarios] shows what it showed before. *)
Definition keeps_listing {A} (m : M A) : Prop :=
  ∀ st, listing (st_SCENARIOS (m st).2) = listing (st_SCENARIOS st).

(** The column labels [get_latest_values] reads in each frame. *)
Definition weekly_columns : list string :=
  ["brent"; "inventories"; "industrial_prod"; "dollar_index"; "fed_funds"; "vix"].

Definition transformed_columns : list string :=
  ["brent_return"; "dollar_return"; "indpro_return"; "inventory_pct";
   "fed_funds_diff"; "vix_diff"].

(** The frame cut down to one row. *)
Definition only_row (df : DataFrame) (row : list float) : DataFrame :=
  {| columns := columns df; rows := [row] |}.

End Spec.
Import utils scenario_engine Spec.

(* ===================================================================== *)
(** ** Facts about binary64 arithmetic                                    *)
(* ===================================================================== *)

Module Float64.

Lemma Prim2SF_one : Prim2SF 1%float = S754_finite false 4503599627370496 (-52).
Proof. reflexivity. Qed.

Lemma iter_pos_nat {A} (f : A → A) p x :
  SpecFloat.iter_pos f p x = Nat.iter (Pos.to_nat p) f x.
Proof.
  revert x. induction p as [p IH | p IH | ]; intros x; cbn [SpecFloat.iter_pos].
  - rewrite !IH, Pos2Nat.inj_xI.
    replace (S (2 * Pos.to_nat p)) with (Pos.to_nat p + S (Pos.to_nat p)) by lia.
    by rewrite Nat.iter_add, Nat.iter_succ_r.
  - rewrite !IH, Pos2Nat.inj_xO.
    replace (2 * Pos.to_nat p) with (Pos.to_nat p + Pos.to_nat p) by lia.
    by rewrite Nat.iter_add.
  - reflexivity.
Qed.

(** Shifting right, [k] times, a mantissa that ends in [k] zero bits loses
    nothing. *)
Lemma shr_1_shifted (k : nat) (m : positive) :
  Nat.iter k shr_1 (Build_shr_record (Z.pos (Nat.iter k xO m)) false false)
  = Build_shr_record (Z.pos m) false false.
Proof.
  induction k as [| k IH]; [reflexivity |].
  rewrite Nat.iter_succ_r. cbn [Nat.iter nat_rect shr_1 orb]. exact IH.
Qed.

Lemma digits2_shifted (k : nat) (m : positive) :
  Z.pos (digits2_pos (Nat.iter k xO m)) = (Z.pos (digits2_pos m) + Z.of_nat k)%Z.
Proof.
  induction k as [| k IH]; [cbn; lia |].
  cbn [Nat.iter nat_rect digits2_pos]. rewrite Pos2Z.inj_succ.
  change (Z.pos (digits2_pos (nat_rect (λ _, positive) m (λ _, xO) k)))
    with (Z.pos (digits2_pos (Nat.iter k xO m))).
  rewrite IH. lia.
Qed.

Lemma mul_pow2_shifted (m : positive) :
  (m * 4503599627370496)%positive = Nat.iter 52 xO m.
Proof. rewrite Pos.mul_comm. reflexivity. Qed.

Lemma SF64mul_one_r (x : spec_float) :
  valid_binary x = true → SF64mul x (S754_finite false 4503599627370496 (-52)) = x.
Proof.
  destruct x as [s | s | | s m e]; cbn [SpecFloat.valid_binary]; intros Hv.
  - by destruct s.
  - by destruct s.
  - reflexivity.
  - unfold SF64mul, SFmul.
    unfold bounded, canonical_mantissa in Hv.
    apply andb_prop in Hv as [Hc Hb]. apply Z.eqb_eq in Hc.
    replace (xorb s false) with s by (by destruct s).
    rewrite mul_pow2_shifted.
    unfold binary_round_aux, shr_fexp.
    cbn [Zdigits2]. rewrite digits2_shifted.
    replace (Z.pos (digits2_pos m) + Z.of_nat 52 + (e + -52))%Z
      with (Z.pos (digits2_pos m) + e)%Z by lia.
    rewrite Hc.
    replace (e - (e + -52))%Z with 52%Z by lia.
    cbn [shr shr_record_of_loc]. rewrite iter_pos_nat.
    change (Pos.to_nat 52) with 52%nat. rewrite shr_1_shifted.
    cbn [shr_m loc_of_shr_record round_nearest_even Zdigits2].
    replace (e + -52 + 52)%Z with e by lia.
    rewrite Hc, Z.sub_diag. cbn [shr shr_m].
    by rewrite Hb.
Qed.

(** Multiplying by 1.0 changes no binary64 value, NaN and the infinities
    included. *)
Lemma mul_one_r (x : float) : (x * 1)%float = x.
Proof.
  apply Prim2SF_inj. rewrite mul_spec, Prim2SF_one.
  apply SF64mul_one_r, Prim2SF_valid.
Qed.

Lemma is_finite_inv (x : float) :
  is_finite x = true →
  (∃ s, Prim2SF x = S754_zero s) ∨ (∃ s m e, Prim2SF x = S754_finite s m e).
Proof.
  unfold is_finite, is_nan, is_infinity.
  rewrite !FloatAxioms.eqb_spec, abs_spec.
  destruct (Prim2SF x) as [s | s | | s m e]; intros Hx.
  - left. by exists s.
  - by destruct s.
  - discriminate.
  - right. by exists s, m, e.
Qed.

(** A finite value times 0.0 is a zero (of either sign). *)
Lemma mul_zero_r_finite (x : float) :
  is_finite x = true → (x * 0 =? 0)%float = true.
Proof.
  intros Hx. rewrite FloatAxioms.eqb_spec, mul_spec.
  change (Prim2SF 0) with (S754_zero false).
  destruct (is_finite_inv x Hx) as [[s ->] | (s & m & e & ->)]; reflexivity.
Qed.

(** A value that compares equal to zero is one of the two zeros. *)
Lemma eqb_zero_inv (b : float) :
  (b =? 0)%float = true → ∃ s, Prim2SF b = S754_zero s.
Proof.
  rewrite FloatAxioms.eqb_spec. change (Prim2SF 0) with (S754_zero false).
  destruct (Prim2SF b) as [s | s | | s m e]; cbn; try discriminate; eauto.
  - destruct s; discriminate.
  - destruct s; discriminate.
Qed.

(** Adding the negative zero changes nothing; adding 0.0 changes only the
    negative zero, which becomes 0.0. *)
Lemma add_neg_zero_r (x : float) : (x + neg_zero)%float = x.
Proof.
  apply Prim2SF_inj. rewrite add_spec.
  change (Prim2SF neg_zero) with (S754_zero true).
  by destruct (Prim2SF x) as [[] | [] | | s m e].
Qed.

Lemma add_zero_r (x : float) : x ≠ neg_zero → (x + 0)%float = x.
Proof.
  intros Hx. apply Prim2SF_inj. rewrite add_spec.
  change (Prim2SF 0) with (S754_zero false).
  destruct (Prim2SF x) as [[] | [] | | s m e] eqn:Hsf; try done.
  exfalso. apply Hx. by apply Prim2SF_inj.
Qed.

Lemma SF_nan_inv (x : float) : Prim2SF x = S754_nan → x = nan.
Proof. intros Hx. by apply Prim2SF_inj. Qed.

Lemma SF_infinity_inv (x : float) s :
  Prim2SF x = S754_infinity s → x = infinity ∨ x = neg_infinity.
Proof.
  intros Hx. destruct s; [right | left]; by apply Prim2SF_inj.
Qed.

(** The percentage formula of [format_price_change] with a zero baseline:
    the quotient is never a finite number. *)
Lemma pct_of_zero_baseline (b s : float) :
  (b =? 0)%float = true →
  let pct := (((s - b) / b) * 100)%float in
  pct = nan ∨ pct = infinity ∨ pct = neg_infinity.
Proof.
  intros Hb pct. destruct (eqb_zero_inv b Hb) as [sb Hsb].
  assert (Hp : Prim2SF pct = S754_nan ∨ ∃ sg, Prim2SF pct = S754_infinity sg).
  { subst pct. rewrite mul_spec, div_spec, sub_spec, Hsb.
    change (Prim2SF 100) with (S754_finite false 7036874417766400 (-46)).
    destruct (Prim2SF s) as [ss | ss | | ss m e]; destruct sb; try destruct ss; cbn; eauto. }
  destruct Hp as [Hp | [sg Hp]].
  - left. by apply SF_nan_inv.
  - right. by eapply SF_infinity_inv.
Qed.

(** A value minus itself is 0.0 or NaN, never a positive number. *)
Lemma sub_diag_not_positive (x : float) : (0 <? x - x)%float = false.
Proof.
  rewrite ltb_spec, sub_spec. change (Prim2SF 0) with (S754_zero false).
  destruct (Prim2SF x) as [[] | [] | | s m e]; try reflexivity.
  unfold SF64sub, SFsub. by rewrite Z.sub_diag.
Qed.

(** A finite value times 0.0 is one of the two zeros. *)
Lemma mul_zero_r_signed (x : float) :
  is_finite x = true → (x * 0)%float = 0%float ∨ (x * 0)%float = neg_zero.
Proof.
  intros Hx. destruct (eqb_zero_inv _ (mul_zero_r_finite x Hx)) as [[] Hs].
  - right. by apply Prim2SF_inj.
  - left. by apply Prim2SF_inj.
Qed.

(** A value whose reciprocal is not negative is not the negative zero. *)
Lemma not_neg_zero (x : float) : (1 / x <? 0)%float = false → x ≠ neg_zero.
Proof. intros Hx ->. vm_compute in Hx. discriminate Hx. Qed.

Lemma nonzero_not_neg_zero (x : float) : (x =? 0)%float = false → x ≠ neg_zero.
Proof. intros Hx ->. vm_compute in Hx. discriminate Hx. Qed.

End Float64.

(* ===================================================================== *)
(** ** How the engine's methods run                                       *)
(* ===================================================================== *)

Section EngineFacts.
Context {B : Builtins} {F : ForecastModel}.

Lemma bind_inr {A C} (m : M A) (k : A → M C) st a st' :
  m st = (inr a, st') → bind m k st = k a st'.
Proof. unfold bind. by intros ->. Qed.

Lemma bind_inl {A C} (m : M A) (k : A → M C) st e st' :
  m st = (inl e, st') → bind m k st = (inl e, st').
Proof. unfold bind. by intros ->. Qed.

Lemma map_replicate {A C} (f : A → C) (n : nat) (x : A) :
  map f (replicate n x) = replicate n (f x).
Proof. induction n as [| n IH]; [done |]. cbn. by rewrite IH. Qed.

(** The builder never fails: it logs the call and returns the frame of
    [forecast_weeks] copies of the shocked driver vector. *)
Lemma build_exog_matrix_run (shocks : gmap string float) (weeks : Z) (st : Store) :
  _build_exog_matrix shocks weeks st
  = (inr (exog_frame (st_latest st) shocks weeks), logged st (BuildExog shocks weeks)).
Proof.
  unfold _build_exog_matrix.
  erewrite bind_inr by reflexivity.
  erewrite bind_inr by reflexivity.
  cbn [st_latest logged].
  erewrite bind_inr by reflexivity.
  unfold ret, exog_frame, DataFrame_of_records, logged.
  rewrite map_replicate. reflexivity.
Qed.

Lemma model_get_forecast_run (steps : Z) (exog : DataFrame) (st : Store) :
  model_get_forecast steps exog st
  = (get_forecast steps exog, logged st (GetForecast steps exog)).
Proof. reflexivity. Qed.

Lemma run_baseline_run (weeks : Z) (st : Store) :
  run_baseline weeks st
  = match get_forecast weeks (exog_frame (st_latest st) zero_shocks weeks) with
    | inl e => (inl e, after_baseline st weeks)
    | inr forecast =>
        (inr {| b_type := "baseline";
                b_forecast_mean := predicted_mean forecast;
                b_conf_int := conf_int forecast 0.05%float;
                b_weeks := weeks;
                b_current_price := brent_price (st_latest st) |},
         after_baseline st weeks)
    end.
Proof.
  unfold run_baseline.
  erewrite bind_inr by apply build_exog_matrix_run.
  unfold bind at 1. rewrite model_get_forecast_run.
  fold zero_shocks. cbn [st_latest logged].
  by destruct (get_forecast _ _).
Qed.

Lemma run_scenario_unknown (key : string) (weeks : Z) (st : Store) :
  dict_get (st_SCENARIOS st) key = None →
  run_scenario key weeks st
  = (inl (ValueError ("Unknown scenario '" +:+ key +:+ "'. " +:+ "Available: "
                      +:+ repr_list (dict_keys (st_SCENARIOS st)))), st).
Proof.
  intros Hget. unfold run_scenario.
  erewrite bind_inr by reflexivity. by rewrite Hget.
Qed.

Lemma run_scenario_baseline_raises (key : string) sc (weeks : Z) (st : Store) e :
  dict_get (st_SCENARIOS st) key = Some sc →
  get_forecast weeks (exog_frame (st_latest st) zero_shocks weeks) = inl e →
  run_scenario key weeks st = (inl e, after_baseline st weeks).
Proof.
  intros Hget Hf. unfold run_scenario.
  erewrite bind_inr by reflexivity. rewrite Hget.
  erewrite bind_inl; [done |]. by rewrite run_baseline_run, Hf.
Qed.

Lemma run_scenario_shocked_raises (key : string) sc (weeks : Z) (st : Store) p0 e :
  dict_get (st_SCENARIOS st) key = Some sc →
  get_forecast weeks (exog_frame (st_latest st) zero_shocks weeks) = inr p0 →
  get_forecast weeks (exog_frame (st_latest st) (shocks sc) weeks) = inl e →
  run_scenario key weeks st = (inl e, after_scenario st (shocks sc) weeks).
Proof.
  intros Hget Hf0 Hf1. unfold run_scenario.
  erewrite bind_inr by reflexivity. rewrite Hget.
  erewrite bind_inr by (by rewrite run_baseline_run, Hf0).
  erewrite bind_inr by apply build_exog_matrix_run.
  erewrite bind_inl; [done |].
  rewrite model_get_forecast_run. cbn [st_latest logged after_baseline].
  by rewrite Hf1.
Qed.

(** After both oracle calls answered, the run is decided by the four
    positional reads. *)
Lemma run_scenario_forecasts (key : string) sc (weeks : Z) (st : Store) p0 p1 :
  dict_get (st_SCENARIOS st) key = Some sc →
  get_forecast weeks (exog_frame (st_latest st) zero_shocks weeks) = inr p0 →
  get_forecast weeks (exog_frame (st_latest st) (shocks sc) weeks) = inr p1 →
  run_scenario key weeks st
  = (match iloc (predicted_mean p0) (-1), iloc (predicted_mean p1) (-1),
           iloc (predicted_mean p0) 0, iloc (predicted_mean p1) 0 with
     | inl e, _, _, _ => inl e
     | inr _, inl e, _, _ => inl e
     | inr _, inr _, inl e, _ => inl e
     | inr _, inr _, inr _, inl e => inl e
     | inr baseline_end, inr shocked_end, inr baseline_w1, inr shocked_w1 =>
         inr {| scenario_key := key;
                scenario_name := name sc;
                scenario_desc := description sc;
                r_shocks := shocks sc;
                current_price := brent_price (st_latest st);
                baseline_forecast := predicted_mean p0;
                shocked_forecast := predicted_mean p1;
                shocked_conf_int := conf_int p1 0.05%float;
                impact_week1 := format_price_change baseline_w1 shocked_w1;
                impact_week12 := format_price_change baseline_end shocked_end;
                weeks := weeks |}
     end, after_scenario st (shocks sc) weeks).
Proof.
  intros Hget Hf0 Hf1. unfold run_scenario.
  erewrite bind_inr by reflexivity. rewrite Hget.
  erewrite bind_inr by (by rewrite run_baseline_run, Hf0).
  erewrite bind_inr by apply build_exog_matrix_run.
  erewrite bind_inr;
    [| by rewrite model_get_forecast_run; cbn [st_latest logged after_baseline]; rewrite Hf1].
  cbn [b_forecast_mean]. unfold bind, lift, read, ret.
  fold (after_scenario st (shocks sc) weeks).
  destruct (iloc (predicted_mean p0) (-1)); [done |].
  destruct (iloc (predicted_mean p1) (-1)); [done |].
  destruct (iloc (predicted_mean p0) 0); [done |].
  by destruct (iloc (predicted_mean p1) 0).
Qed.

(** *** Frame: which computations leave catalog and snapshot alone *)

Lemma untouched_refl (st : Store) : untouched st st.
Proof.
  repeat split. exists []. split; [by rewrite app_nil_r | constructor].
Qed.

Lemma untouched_trans (st1 st2 st3 : Store) :
  untouched st1 st2 → untouched st2 st3 → untouched st1 st3.
Proof.
  intros (Hc1 & Hl1 & evs1 & Hj1 & Hn1) (Hc2 & Hl2 & evs2 & Hj2 & Hn2).
  split; [congruence |]. split; [congruence |].
  exists (evs1 ++ evs2). split.
  - by rewrite Hj2, Hj1, app_assoc.
  - by apply Forall_app.
Qed.

Lemma untouched_logged (st : Store) (ev : event) :
  ¬ is_SetShocks ev → untouched st (logged st ev).
Proof.
  intros Hev. repeat split. exists [ev]. split; [done |].
  by constructor.
Qed.

Lemma read_only_ret {A} (a : A) : read_only (ret a).
Proof. intros st. apply untouched_refl. Qed.

Lemma read_only_raise {A} (e : exn) : read_only (raise (A := A) e).
Proof. intros st. apply untouched_refl. Qed.

Lemma read_only_lift {A} (r : exn + A) : read_only (lift r).
Proof. intros st. apply untouched_refl. Qed.

Lemma read_only_read : read_only read.
Proof. intros st. apply untouched_refl. Qed.

Lemma read_only_record_call (ev : event) :
  ¬ is_SetShocks ev → read_only (record_call ev).
Proof. intros Hev st. by apply untouched_logged. Qed.

Lemma read_only_bind {A C} (m : M A) (k : A → M C) :
  read_only m → (∀ a, read_only (k a)) → read_only (bind m k).
Proof.
  intros Hm Hk st. unfold bind. specialize (Hm st).
  destruct (m st) as [[e | a] st']; [done |].
  eapply untouched_trans; [exact Hm | apply Hk].
Qed.

Lemma read_only_for_each {A C} (body : A → C → M A) (acc : A) (xs : list C) :
  (∀ a x, read_only (body a x)) → read_only (for_each body acc xs).
Proof.
  intros Hbody. revert acc.
  induction xs as [| x xs IH]; intros acc; cbn [for_each].
  - apply read_only_ret.
  - apply read_only_bind; [apply Hbody | intros a; apply IH].
Qed.

Lemma read_only_getitem (d : gmap string float) (key : string) :
  read_only (getitem d key).
Proof.
  unfold getitem. destruct (d !! key); [apply read_only_ret | apply read_only_raise].
Qed.

Create HintDb frame.
Hint Resolve read_only_ret read_only_raise read_only_lift read_only_read
  read_only_getitem : frame.

Lemma read_only_build_exog_matrix (shocks : gmap string float) (weeks : Z) :
  read_only (_build_exog_matrix shocks weeks).
Proof.
  unfold _build_exog_matrix.
  apply read_only_bind; [apply read_only_record_call; cbn; tauto |]. intros _.
  apply read_only_bind; [auto with frame |]. intros st.
  apply read_only_bind; [| auto with frame].
  apply read_only_for_each. intros acc col.
  apply read_only_bind; auto with frame.
Qed.

Lemma read_only_model_get_forecast (steps : Z) (exog : DataFrame) :
  read_only (model_get_forecast steps exog).
Proof.
  unfold model_get_forecast.
  apply read_only_bind; [apply read_only_record_call; cbn; tauto | auto with frame].
Qed.

Lemma read_only_run_baseline (weeks : Z) : read_only (run_baseline weeks).
Proof.
  unfold run_baseline.
  apply read_only_bind; [apply read_only_build_exog_matrix |]. intros exog.
  apply read_only_bind; [apply read_only_model_get_forecast |]. intros forecast.
  apply read_only_bind; auto with frame.
Qed.

(** [run_scenario] itself writes nothing, whatever its outcome. *)
Lemma read_only_run_scenario (key : string) (weeks : Z) :
  read_only (run_scenario key weeks).
Proof.
  unfold run_scenario.
  apply read_only_bind; [auto with frame |]. intros st.
  destruct (dict_get (st_SCENARIOS st) key) as [scenario |]; [| auto with frame].
  apply read_only_bind; [apply read_only_run_baseline |]. intros ?.
  apply read_only_bind; [apply read_only_build_exog_matrix |]. intros ?.
  apply read_only_bind; [apply read_only_model_get_forecast |]. intros ?.
  repeat (apply read_only_bind; [auto with frame |]; intros ?).
  auto with frame.
Qed.

(** *** The ordered dict *)

Lemma dict_get_None_keys {V} (d : dict V) (k : string) :
  dict_get d k = None ↔ k ∉ dict_keys d.
Proof.
  induction d as [| [k' v] d IH]; cbn.
  - split; [intros _; apply not_elem_of_nil | done].
  - rewrite not_elem_of_cons. destruct (String.eqb_spec k k') as [-> | Hne].
    + split; [done | by intros [? _]].
    + rewrite IH. tauto.
Qed.

Lemma dict_keys_alter {V} (f : V → V) (k : string) (d : dict V) :
  dict_keys (dict_alter f k d) = dict_keys d.
Proof.
  induction d as [| [k' v] d IH]; [done |].
  cbn. destruct (String.eqb k k'); cbn; [done | by f_equal].
Qed.

Lemma dict_get_alter {V} (f : V → V) (k : string) (d : dict V) :
  dict_get (dict_alter f k d) k = f <$> dict_get d k.
Proof.
  induction d as [| [k' v] d IH]; [done |].
  cbn. destruct (String.eqb k k') eqn:Hk; cbn; rewrite Hk; [done | exact IH].
Qed.

Lemma dict_alter_alter {V} (f g : V → V) (k : string) (d : dict V) :
  dict_alter g k (dict_alter f k d) = dict_alter (g ∘ f) k d.
Proof.
  induction d as [| [k' v] d IH]; [done |].
  cbn. destruct (String.eqb k k') eqn:Hk; cbn; rewrite Hk; [done | by f_equal].
Qed.

Lemma dict_alter_fixed {V} (f : V → V) (k : string) (d : dict V) v :
  dict_get d k = Some v → f v = v → dict_alter f k d = d.
Proof.
  induction d as [| [k' v'] d IH]; [done |].
  cbn. destruct (String.eqb k k').
  - intros [= ->] ->. done.
  - intros Hget Hf. f_equal. by apply IH.
Qed.


(** *** Positional reads of a forecast *)

Lemma iloc_first (s : list float) (x : float) :
  s !! 0%nat = Some x → iloc s 0 = inr x.
Proof.
  intros Hx. unfold iloc. cbn [Z.ltb Z.compare Z.leb].
  assert (0 < length s)%nat by (by eapply lookup_lt_Some).
  destruct (Z.ltb_spec 0 (Z.of_nat (length s))); [| lia].
  cbn [andb]. change (Z.to_nat 0) with 0%nat. by rewrite Hx.
Qed.

Lemma iloc_last (s : list float) (x : float) :
  s !! (length s - 1)%nat = Some x → iloc s (-1) = inr x.
Proof.
  intros Hx. unfold iloc. cbn [Z.ltb Z.compare].
  assert (length s - 1 < length s)%nat by (by eapply lookup_lt_Some).
  destruct (Z.leb_spec 0 (Z.of_nat (length s) + -1)); [| lia].
  destruct (Z.ltb_spec (Z.of_nat (length s) + -1) (Z.of_nat (length s))); [| lia].
  cbn [andb].
  replace (Z.to_nat (Z.of_nat (length s) + -1)) with (length s - 1)%nat by lia.
  by rewrite Hx.
Qed.

Lemma iloc_empty (i : Z) :
  iloc [] i = inl (IndexError "single positional indexer is out-of-bounds").
Proof.
  unfold iloc. destruct (_ && _)%bool; [| done]. by rewrite lookup_nil.
Qed.

(** *** Overwriting a scenario's shocks around a computation *)

Lemma get_shocks_run (key : string) (st : Store) :
  app.get_shocks key st
  = (match dict_get (st_SCENARIOS st) key with
     | Some scenario => inr (shocks scenario)
     | None => inl (KeyError key)
     end, st).
Proof.
  unfold app.get_shocks. erewrite bind_inr by reflexivity.
  by destruct (dict_get _ _).
Qed.

(** Scale, overwrite, compute, restore: the shape shared by the endpoint
    and the interactive loop.  When the computation in the middle writes
    nothing and returns, the catalog is back to what it was; the snapshot
    is never written. *)
Lemma overwrite_restore_run {A C} (key : string) (scaled : gmap string float)
    (m : M A) (k : A → C) (st : Store) scenario out st' :
  dict_get (st_SCENARIOS st) key = Some scenario →
  read_only m →
  (set_shocks key scaled ;;; (r <- m ;; (set_shocks key (shocks scenario) ;;; ret (k r)))) st
    = (out, st') →
  st_latest st' = st_latest st ∧
  (∀ c, out = inr c → st_SCENARIOS st' = st_SCENARIOS st) ∧
  ∃ evs, st_journal st' = st_journal st ++ SetShocks key scaled :: evs.
Proof.
  intros Hget Hm. unfold bind at 1. unfold set_shocks at 1. rewrite Hget.
  set (st1 := {| st_SCENARIOS := _; st_latest := _; st_journal := _ |}).
  unfold bind at 1. specialize (Hm st1).
  destruct (m st1) as [[e | r] st2]; cbn [snd] in Hm;
    destruct Hm as (Hc & Hl & evs & Hj & _).
  - intros [= <- <-]. split; [done |]. split; [done |].
    exists evs. rewrite Hj. cbn. by rewrite <- app_assoc.
  - unfold bind, set_shocks, ret.
    rewrite Hc. cbn [st1 st_SCENARIOS]. rewrite dict_get_alter, Hget.
    cbn [fmap option_fmap option_map].
    intros [= <- <-]. cbn [st_latest st_SCENARIOS st_journal].
    split; [by rewrite Hl |]. split.
    + intros _ _.
      rewrite dict_alter_alter. eapply dict_alter_fixed; [exact Hget |].
      by destruct scenario.
    + eexists. rewrite Hj. cbn [st1 st_journal]. by rewrite <- !app_assoc.
Qed.

(** *** Scaling a shock mapping *)

Lemma foldl_alter_lookup (f : float → float) (l : list string) (d : gmap string float) k :
  NoDup l →
  foldl (λ (d : gmap string float) var, alter f var d) d l !! k
  = if decide (k ∈ l) then f <$> d !! k else d !! k.
Proof.
  intros Hl. revert d. induction Hl as [| x l Hx Hl IH]; intros d; cbn [foldl].
  - by rewrite decide_False by apply not_elem_of_nil.
  - rewrite IH, lookup_alter.
    destruct (decide (x = k)) as [-> | Hne].
    + rewrite decide_False by done. rewrite decide_True by apply list_elem_of_here. done.
    + destruct (decide (k ∈ l)) as [Hin | Hnin].
      * by rewrite decide_True by (by apply list_elem_of_further).
      * rewrite decide_False; [done |]. rewrite not_elem_of_cons. split; [done | done].
Qed.

(** The in-place loop of the interactive path computes the same mapping as
    the dict comprehension of the endpoint. *)
Lemma scale_in_place_fmap (modifier : float) (d : gmap string float) :
  test.scale_in_place modifier d = app.modified_shocks modifier d.
Proof.
  apply map_eq. intros k. unfold test.scale_in_place, app.modified_shocks.
  change (map fst (map_to_list d)) with ((map_to_list d).*1).
  rewrite foldl_alter_lookup by apply NoDup_fst_map_to_list.
  rewrite lookup_fmap. destruct (decide (k ∈ (map_to_list d).*1)) as [Hin | Hnin]; [done |].
  destruct (d !! k) as [v |] eqn:Hk; [| done].
  exfalso. apply Hnin. apply list_elem_of_fmap. exists (k, v).
  split; [done |]. by apply elem_of_map_to_list.
Qed.

End EngineFacts.

(* ===================================================================== *)
(** ** The exogenous matrix builder                                       *)
(* ===================================================================== *)

Lemma shocked_row_unknown_driver (latest : LatestValues) (shocks : gmap string float)
    (k : string) (v : float) :
  k ∉ exog_cols → shocked_row latest (<[k := v]> shocks) = shocked_row latest shocks.
Proof.
  intros Hk. unfold shocked_row.
  rewrite !lookup_insert_ne; [done | | | | |];
    intros ->; apply Hk; unfold exog_cols; set_solver.
Qed.

(** C2. For every shock mapping and every [weeks >= 1], the builder returns
    exactly [weeks] rows over the five fixed driver columns, every row being
    the vector of [latest[driver] + shocks.get(driver, 0.0)]; a name in the
    shock mapping that is not one of the five drivers changes nothing and
    raises nothing. *)
Theorem build_exog_matrix_rows (st : Store) (shocks : gmap string float) (weeks : Z) :
  (1 ≤ weeks)%Z →
  ∃ exog,
    (_build_exog_matrix shocks weeks st).1 = inr exog ∧
    columns exog
      = ["dollar_return"; "indpro_return"; "inventory_pct"; "fed_funds_diff"; "vix_diff"] ∧
    Z.of_nat (length (rows exog)) = weeks ∧
    (∀ row, row ∈ rows exog → row = shocked_row (st_latest st) shocks) ∧
    (∀ k v, k ∉ exog_cols →
       (_build_exog_matrix (<[k := v]> shocks) weeks st).1 = inr exog).
Proof.
  intros Hweeks. exists (exog_frame (st_latest st) shocks weeks).
  rewrite build_exog_matrix_run. cbn [fst exog_frame columns rows].
  split; [done |]. split; [done |]. split; [| split].
  - rewrite length_replicate. lia.
  - intros row Hrow. by apply elem_of_replicate in Hrow as [-> _].
  - intros k v Hk. rewrite build_exog_matrix_run. cbn [fst].
    unfold exog_frame. by rewrite shocked_row_unknown_driver.
Qed.

Lemma build_exog_matrix_rows_witness :
  ∃ exog,
    (_build_exog_matrix {["vix_diff" := 2%float; "oil_gods" := 9%float]} 3 Stub.store0).1
      = inr exog ∧
    rows exog = replicate 3 [0.001; 0.0005; -0.01; 0; 2.5]%float.
Proof.
  destruct (build_exog_matrix_rows Stub.store0
              {["vix_diff" := 2%float; "oil_gods" := 9%float]} 3 ltac:(lia))
    as (exog & Hrun & _ & _ & _ & _).
  exists exog. split; [exact Hrun |].
  rewrite build_exog_matrix_run in Hrun. injection Hrun as <-. vm_compute. reflexivity.
Defined.

(* ===================================================================== *)
(** ** Unknown scenario keys                                              *)
(* ===================================================================== *)

(** C10. For a key that is not in the catalog, whatever the horizon,
    [run_scenario] raises at once: the store it leaves is the store it was
    given, so no exogenous matrix was built, the forecast oracle was not
    invoked (the journal has no new entry), and catalog and snapshot are as
    they were. *)
Theorem unknown_key_raises_before_any_work
    {B : Builtins} {F : ForecastModel} (st : Store) (key : string) (weeks : Z) :
  dict_mem (st_SCENARIOS st) key = false →
  ∃ msg,
    run_scenario key weeks st = (inl (ValueError msg), st) ∧
    st_journal (run_scenario key weeks st).2 = st_journal st ∧
    st_SCENARIOS (run_scenario key weeks st).2 = st_SCENARIOS st ∧
    st_latest (run_scenario key weeks st).2 = st_latest st.
Proof.
  unfold dict_mem. intros Hmem.
  destruct (dict_get (st_SCENARIOS st) key) eqn:Hget; [done |].
  eexists. rewrite (run_scenario_unknown key weeks st Hget). done.
Qed.

Lemma unknown_key_raises_before_any_work_witness :
  (run_scenario (B := Stub.stub_builtins) (F := Stub.stub_model) "made_up_key" 12 Stub.store0).2
  = Stub.store0.
Proof.
  destruct (unknown_key_raises_before_any_work
              (B := Stub.stub_builtins) (F := Stub.stub_model)
              Stub.store0 "made_up_key" 12 eq_refl) as (msg & -> & _).
  reflexivity.
Defined.

Lemma catalog_keys :
  dict_keys SCENARIOS
  = ["opec_cut"; "global_recession"; "rate_hike"; "geopolitical_tension"; "demand_boom"].
Proof. reflexivity. Qed.

(** C4. For every key that is not in the catalog and every horizon,
    [run_scenario] fails with the unknown-scenario [ValueError], whose message
    names the rejected key and lists the five valid keys. *)
Theorem unknown_key_error_lists_keys
    {B : Builtins} {F : ForecastModel} (st : Store) (key : string) (weeks : Z) :
  dict_keys (st_SCENARIOS st) = dict_keys SCENARIOS →
  key ∉ dict_keys SCENARIOS →
  (run_scenario key weeks st).1
  = inl (ValueError
           ("Unknown scenario '" +:+ key +:+
            "'. Available: ['opec_cut', 'global_recession', 'rate_hike', 'geopolitical_tension', 'demand_boom']")).
Proof.
  intros Hkeys Hkey.
  rewrite run_scenario_unknown.
  - rewrite Hkeys. reflexivity.
  - apply dict_get_None_keys. by rewrite Hkeys.
Qed.

Lemma unknown_key_error_lists_keys_witness :
  (run_scenario (B := Stub.stub_builtins) (F := Stub.stub_model) "made_up_key" (-7) Stub.store0).1
  = inl (ValueError
           "Unknown scenario 'made_up_key'. Available: ['opec_cut', 'global_recession', 'rate_hike', 'geopolitical_tension', 'demand_boom']").
Proof.
  apply (unknown_key_error_lists_keys (B := Stub.stub_builtins) (F := Stub.stub_model)
           Stub.store0 "made_up_key" (-7)).
  - reflexivity.
  - rewrite catalog_keys. intros Hin.
    repeat (apply elem_of_cons in Hin as [Hin | Hin]; [discriminate Hin |]).
    by apply elem_of_nil in Hin.
Defined.

(* ===================================================================== *)
(** ** A complete run                                                     *)
(* ===================================================================== *)

Lemma exog_frame_length (latest : LatestValues) (shocks : gmap string float) (weeks : Z) :
  length (rows (exog_frame latest shocks weeks)) = Z.to_nat weeks.
Proof. apply length_replicate. Qed.

(** With an oracle that honours its contract, a run over a known scenario
    and a horizon of at least one week returns, and the result is built
    from the two forecasts as [run_scenario] says. *)
Lemma run_scenario_returns
    {B : Builtins} {F : ForecastModel} (st : Store) (key : string) (sc : Scenario) (N : Z) :
  oracle_contract F →
  dict_get (st_SCENARIOS st) key = Some sc →
  (1 ≤ N)%Z →
  ∃ p0 p1 b1 s1 bN sN,
    get_forecast N (exog_frame (st_latest st) zero_shocks N) = inr p0 ∧
    get_forecast N (exog_frame (st_latest st) (shocks sc) N) = inr p1 ∧
    length (predicted_mean p0) = Z.to_nat N ∧
    length (predicted_mean p1) = Z.to_nat N ∧
    predicted_mean p0 !! 0%nat = Some b1 ∧
    predicted_mean p1 !! 0%nat = Some s1 ∧
    predicted_mean p0 !! Z.to_nat (N - 1) = Some bN ∧
    predicted_mean p1 !! Z.to_nat (N - 1) = Some sN ∧
    run_scenario key N st
    = (inr {| scenario_key := key;
              scenario_name := name sc;
              scenario_desc := description sc;
              r_shocks := shocks sc;
              current_price := brent_price (st_latest st);
              baseline_forecast := predicted_mean p0;
              shocked_forecast := predicted_mean p1;
              shocked_conf_int := conf_int p1 0.05%float;
              impact_week1 := format_price_change b1 s1;
              impact_week12 := format_price_change bN sN;
              weeks := N |},
       after_scenario st (shocks sc) N).
Proof.
  intros Horacle Hget HN.
  destruct (Horacle N (exog_frame (st_latest st) zero_shocks N) HN
              (exog_frame_length _ _ _)) as (p0 & Hp0 & Hlen0).
  destruct (Horacle N (exog_frame (st_latest st) (shocks sc) N) HN
              (exog_frame_length _ _ _)) as (p1 & Hp1 & Hlen1).
  destruct (lookup_lt_is_Some_2 (predicted_mean p0) 0) as [b1 Hb1]; [lia |].
  destruct (lookup_lt_is_Some_2 (predicted_mean p1) 0) as [s1 Hs1]; [lia |].
  destruct (lookup_lt_is_Some_2 (predicted_mean p0) (Z.to_nat (N - 1))) as [bN HbN]; [lia |].
  destruct (lookup_lt_is_Some_2 (predicted_mean p1) (Z.to_nat (N - 1))) as [sN HsN]; [lia |].
  exists p0, p1, b1, s1, bN, sN. repeat (split; [done |]).
  rewrite (run_scenario_forecasts key sc N st p0 p1 Hget Hp0 Hp1).
  rewrite (iloc_first _ _ Hb1), (iloc_first _ _ Hs1).
  rewrite (iloc_last _ bN), (iloc_last _ sN); [done | |].
  - by replace (length (predicted_mean p1) - 1)%nat with (Z.to_nat (N - 1)) by lia.
  - by replace (length (predicted_mean p0) - 1)%nat with (Z.to_nat (N - 1)) by lia.
Qed.

(** C8. For every valid scenario key and every [N >= 1], with an oracle
    that honours its contract, [run_scenario key N] returns baseline and
    shocked forecasts of length exactly [N]; [impact_week1] is computed from
    index 0 of both sequences and [impact_week12] (the full-horizon impact)
    from index [N - 1] of both. *)
Theorem run_returns_aligned_forecasts
    {B : Builtins} {F : ForecastModel} (st : Store) (key : string) (sc : Scenario) (N : Z) :
  oracle_contract F →
  dict_get (st_SCENARIOS st) key = Some sc →
  (1 ≤ N)%Z →
  ∃ r b1 s1 bN sN,
    (run_scenario key N st).1 = inr r ∧
    Z.of_nat (length (baseline_forecast r)) = N ∧
    Z.of_nat (length (shocked_forecast r)) = N ∧
    baseline_forecast r !! 0%nat = Some b1 ∧
    shocked_forecast r !! 0%nat = Some s1 ∧
    baseline_forecast r !! Z.to_nat (N - 1) = Some bN ∧
    shocked_forecast r !! Z.to_nat (N - 1) = Some sN ∧
    impact_week1 r = format_price_change b1 s1 ∧
    impact_week12 r = format_price_change bN sN.
Proof.
  intros Horacle Hget HN.
  destruct (run_scenario_returns st key sc N Horacle Hget HN)
    as (p0 & p1 & b1 & s1 & bN & sN & _ & _ & Hl0 & Hl1 & Hb1 & Hs1 & HbN & HsN & ->).
  eexists _, b1, s1, bN, sN. split; [reflexivity |].
  cbn [baseline_forecast shocked_forecast impact_week1 impact_week12].
  repeat split; try done; lia.
Qed.

Lemma stub_model_contract : oracle_contract Stub.stub_model.
Proof.
  intros steps exog _ Hrows. eexists. split; [reflexivity |].
  cbn [predicted_mean]. by rewrite length_map.
Qed.

Lemma run_returns_aligned_forecasts_witness :
  ∃ r, (run_scenario (B := Stub.stub_builtins) (F := Stub.stub_model)
          "rate_hike" 4 Stub.store0).1 = inr r ∧
       length (baseline_forecast r) = 4%nat ∧ length (shocked_forecast r) = 4%nat.
Proof.
  destruct (run_returns_aligned_forecasts (B := Stub.stub_builtins) (F := Stub.stub_model)
              Stub.store0 "rate_hike"
              (default (mkScenario "" "" ∅) (dict_get SCENARIOS "rate_hike")) 4
              stub_model_contract eq_refl ltac:(lia))
    as (r & _ & _ & _ & _ & Hr & Hb & Hs & _).
  exists r. split; [exact Hr |]. lia.
Defined.

(* ===================================================================== *)
(** ** The no-op shock                                                    *)
(* ===================================================================== *)

Lemma zero_shocks_lookup (col : string) :
  col ∈ exog_cols → zero_shocks !! col = Some 0.0%float.
Proof.
  unfold exog_cols. intros Hcol.
  repeat (apply elem_of_cons in Hcol as [-> | Hcol]; [reflexivity |]).
  by apply elem_of_nil in Hcol.
Qed.

(** A mapping whose values are all 0.0 shocks the drivers exactly as the
    zero-shock mapping of the baseline does. *)
Lemma shocked_row_all_zero (latest : LatestValues) (shocks : gmap string float) :
  map_Forall (λ _ v, v = 0.0%float) shocks →
  shocked_row latest shocks = shocked_row latest zero_shocks.
Proof.
  intros Hzero.
  assert (Hcol : ∀ col, col ∈ exog_cols →
            default 0.0%float (shocks !! col) = default 0.0%float (zero_shocks !! col)).
  { intros col Hin. rewrite (zero_shocks_lookup col Hin).
    destruct (shocks !! col) as [v |] eqn:Hv; [| done]. cbn. by apply (Hzero col). }
  unfold shocked_row.
  rewrite !Hcol; [done | | | | |]; unfold exog_cols; set_solver.
Qed.

(** The same holds for zeros of either sign as long as no driver of the
    snapshot is itself the negative zero. *)
Lemma shocked_row_signed_zero (latest : LatestValues) (shocks : gmap string float) :
  map_Forall (λ _ v, v = 0.0%float ∨ v = neg_zero) shocks →
  Forall (λ x, x ≠ neg_zero)
         [dollar_return latest; indpro_return latest; inventory_pct latest;
          fed_funds_diff latest; vix_diff latest] →
  shocked_row latest shocks = shocked_row latest zero_shocks.
Proof.
  intros Hzero Hlatest.
  assert (Hcol : ∀ col x, col ∈ exog_cols → x ≠ neg_zero →
            (x + default 0.0 (shocks !! col))%float
            = (x + default 0.0 (zero_shocks !! col))%float).
  { intros col x Hin Hx. rewrite (zero_shocks_lookup col Hin).
    destruct (shocks !! col) as [v |] eqn:Hv; [| done]. cbn.
    destruct (Hzero col v Hv) as [-> | ->]; [done |].
    by rewrite Float64.add_neg_zero_r, Float64.add_zero_r. }
  repeat (apply Forall_cons in Hlatest as [? Hlatest]).
  unfold shocked_row.
  rewrite !Hcol; [done | | | | | | | | | |]; try done; unfold exog_cols; set_solver.
Qed.

(** C7. For every horizon [N >= 1], with an oracle that honours its
    contract, running a scenario whose shock values are all exactly 0.0
    returns a shocked forecast sequence equal to the baseline forecast
    sequence: both oracle calls are made on the same matrix. *)
Theorem zero_shock_run_matches_baseline
    {B : Builtins} {F : ForecastModel} (st : Store) (key : string) (sc : Scenario) (N : Z) :
  oracle_contract F →
  dict_get (st_SCENARIOS st) key = Some sc →
  (1 ≤ N)%Z →
  map_Forall (λ _ v, v = 0.0%float) (shocks sc) →
  ∃ r, (run_scenario key N st).1 = inr r ∧
       Z.of_nat (length (baseline_forecast r)) = N ∧
       shocked_forecast r = baseline_forecast r.
Proof.
  intros Horacle Hget HN Hzero.
  destruct (run_scenario_returns st key sc N Horacle Hget HN)
    as (p0 & p1 & b1 & s1 & bN & sN & Hp0 & Hp1 & Hl0 & _ & _ & _ & _ & _ & ->).
  eexists. split; [reflexivity |]. cbn [baseline_forecast shocked_forecast].
  split; [lia |].
  unfold exog_frame in Hp0, Hp1. rewrite (shocked_row_all_zero _ _ Hzero) in Hp1.
  congruence.
Qed.

Lemma zero_shock_run_matches_baseline_witness :
  ∃ r, (run_scenario (B := Stub.stub_builtins) (F := Stub.stub_model)
          "no_op" 3 Stub.no_op_store).1 = inr r ∧
       shocked_forecast r = baseline_forecast r.
Proof.
  destruct (zero_shock_run_matches_baseline (B := Stub.stub_builtins) (F := Stub.stub_model)
              Stub.no_op_store "no_op" Stub.no_op 3
              stub_model_contract eq_refl ltac:(lia))
    as (r & Hr & _ & Heq).
  - unfold Stub.no_op. cbn [shocks].
    apply map_Forall_insert_2; [reflexivity |].
    apply map_Forall_insert_2; [reflexivity |].
    apply map_Forall_empty.
  - by exists r.
Defined.

(* ===================================================================== *)
(** ** The impact summary                                                 *)
(* ===================================================================== *)

(** C6. For every pair with a nonzero baseline, the summary's difference is
    [shocked - baseline] and its percentage [(difference / baseline) * 100],
    both computed on the unrounded values and then rounded to 2 decimals, as
    are the two inputs; the arrow is decided by the sign of the unrounded
    difference. *)
Theorem impact_summary_fields {B : Builtins} (b s : float) :
  (b =? 0)%float = false →
  let diff := (s - b)%float in
  let pct := ((diff / b) * 100)%float in
  let summary := format_price_change b s in
  baseline summary = round b 2 ∧
  shocked summary = round s 2 ∧
  difference summary = round diff 2 ∧
  pct_change summary = round pct 2 ∧
  arrow summary = (if (0 <? diff)%float then chart_up else chart_down) ∧
  formatted summary
  = (let sign := if (0 <? diff)%float then "+" else "" in
     arrow summary +:+ " " +:+ sign +:+ "$" +:+ format_fixed 2 diff +:+ "/barrel ("
       +:+ sign +:+ format_fixed 1 pct +:+ "%)").
Proof.
  intros _ diff pct summary. subst summary diff pct.
  unfold format_price_change. cbn [baseline shocked difference pct_change arrow formatted].
  repeat split.
Qed.

Lemma impact_summary_fields_witness :
  let summary := format_price_change (B := Stub.stub_builtins) 75 71.25 in
  difference summary = (-3.75)%float ∧ pct_change summary = (-5)%float ∧
  arrow summary = chart_down.
Proof.
  destruct (impact_summary_fields (B := Stub.stub_builtins) 75 71.25 eq_refl)
    as (_ & _ & Hd & Hp & Ha & _).
  cbv zeta. rewrite Hd, Hp, Ha. vm_compute. done.
Defined.

(** The arrow cannot be read off the rounded difference: a rise of a tenth of
    a cent rounds to 0.0 and still points up. *)
Lemma arrow_follows_unrounded_difference :
  let summary := format_price_change (B := Stub.stub_builtins) 75 75.001 in
  difference summary = 0%float ∧ arrow summary = chart_up.
Proof. vm_compute. done. Qed.

(** C3, as the code has it.  With a baseline that compares equal to zero the
    computation raises nothing and substitutes nothing: the percentage is the
    IEEE quotient, which is NaN or an infinity, and [round] hands it on. *)
Theorem zero_baseline_pct_not_finite {B : Builtins} (b s : float) :
  (b =? 0)%float = true →
  round nan 2 = nan →
  round infinity 2 = infinity →
  round neg_infinity 2 = neg_infinity →
  let pct := pct_change (format_price_change b s) in
  pct = round (((s - b) / b) * 100)%float 2 ∧
  (pct = nan ∨ pct = infinity ∨ pct = neg_infinity).
Proof.
  intros Hb Hnan Hinf Hninf pct. split; [done |].
  subst pct. cbn [format_price_change pct_change].
  destruct (Float64.pct_of_zero_baseline b s Hb) as [-> | [-> | ->]]; auto.
Qed.

Lemma zero_baseline_pct_not_finite_witness :
  pct_change (format_price_change (B := Stub.stub_builtins) 0 (-5)) = neg_infinity.
Proof.
  destruct (zero_baseline_pct_not_finite (B := Stub.stub_builtins) 0 (-5)
              eq_refl eq_refl eq_refl eq_refl) as [-> _].
  vm_compute. reflexivity.
Defined.

(** C3, as stated, fails: a zero baseline with a positive forecast returns a
    summary holding Infinity, and with a zero forecast one holding NaN. *)
Lemma zero_baseline_returns_infinity :
  pct_change (format_price_change (B := Stub.stub_builtins) 0 1) = infinity ∧
  pct_change (format_price_change (B := Stub.stub_builtins) 0 0) = nan.
Proof. vm_compute. done. Qed.

(* ===================================================================== *)
(** ** Horizons of zero weeks or fewer                                    *)
(* ===================================================================== *)

Lemma exog_frame_nonpositive (latest : LatestValues) (shocks : gmap string float) (weeks : Z) :
  (weeks ≤ 0)%Z → exog_frame latest shocks weeks = {| columns := exog_cols; rows := [] |}.
Proof.
  intros Hweeks. unfold exog_frame.
  by replace (Z.to_nat weeks) with 0%nat by lia.
Qed.

(** C5, as the code has it.  The engine has no horizon check.  With a horizon
    of 0 or less an unknown key still fails with the unknown-scenario error;
    for a known key the engine builds a matrix of no rows and hands it to the
    oracle with [steps] the requested horizon, and the run fails with what the
    oracle raises or, when the oracle answers with an empty forecast, with the
    [IndexError] of the first positional read. *)
Theorem nonpositive_horizon_reaches_oracle
    {B : Builtins} {F : ForecastModel} (st : Store) (key : string) (weeks : Z) :
  (weeks ≤ 0)%Z →
  let no_rows := {| columns := exog_cols; rows := [] |} in
  let out := run_scenario key weeks st in
  (dict_get (st_SCENARIOS st) key = None →
     ∃ msg, out = (inl (ValueError msg), st)) ∧
  (∀ sc, dict_get (st_SCENARIOS st) key = Some sc →
     (∃ evs, st_journal out.2
             = st_journal st
               ++ [BuildExog zero_shocks weeks; GetForecast weeks no_rows] ++ evs) ∧
     (∀ e, get_forecast weeks no_rows = inl e → out.1 = inl e) ∧
     (∀ p, get_forecast weeks no_rows = inr p → predicted_mean p = [] →
           out.1 = inl (IndexError "single positional indexer is out-of-bounds"))).
Proof.
  intros Hweeks no_rows out. split.
  - intros Hget. eexists. subst out. by rewrite (run_scenario_unknown key weeks st Hget).
  - intros sc Hget.
    pose proof (exog_frame_nonpositive (st_latest st) zero_shocks weeks Hweeks) as Hz.
    pose proof (exog_frame_nonpositive (st_latest st) (shocks sc) weeks Hweeks) as Hs.
    fold no_rows in Hz, Hs.
    destruct (get_forecast weeks no_rows) as [e | p] eqn:Hf.
    + assert (Hout : out = (inl e, after_baseline st weeks)).
      { subst out. apply (run_scenario_baseline_raises key sc); [done | by rewrite Hz]. }
      rewrite Hout. cbn [fst snd]. split; [| split].
      * exists []. unfold after_baseline, logged. cbn [st_journal].
        rewrite Hz. by rewrite <- app_assoc.
      * by intros ? [= ->].
      * done.
    + assert (Hout : out.2 = after_scenario st (shocks sc) weeks ∧
                     (predicted_mean p = [] →
                      out.1 = inl (IndexError "single positional indexer is out-of-bounds"))).
      { subst out.
        rewrite (run_scenario_forecasts key sc weeks st p p Hget) by (by rewrite ?Hz, ?Hs).
        cbn [fst snd]. split; [done |]. intros ->. by rewrite iloc_empty. }
      destruct Hout as [Hstore Hraise]. split; [| split].
      * rewrite Hstore. eexists.
        unfold after_scenario, after_baseline, logged. cbn [st_journal].
        rewrite Hz. rewrite <- !app_assoc. reflexivity.
      * done.
      * by intros ? [= <-].
Qed.

Lemma nonpositive_horizon_reaches_oracle_witness :
  (run_scenario (B := Stub.stub_builtins) (F := Stub.failing_model)
     "opec_cut" (-2) Stub.store0).1
  = inl (Exception "RuntimeError" "model unavailable").
Proof.
  destruct (nonpositive_horizon_reaches_oracle (B := Stub.stub_builtins) (F := Stub.failing_model)
              Stub.store0 "opec_cut" (-2) ltac:(lia)) as [_ Hknown].
  destruct (Hknown (default (mkScenario "" "" ∅) (dict_get SCENARIOS "opec_cut")) eq_refl)
    as (_ & Hraise & _).
  by apply Hraise.
Defined.

(** C5, as stated, fails.  With horizon 0, an unknown key is answered with
    the unknown-scenario error, not a horizon error; and a known key is
    processed: both matrices are built and the oracle is called twice before
    the run dies on an [IndexError]. *)
Lemma zero_horizon_is_processed :
  (run_scenario (B := Stub.stub_builtins) (F := Stub.stub_model) "made_up_key" 0 Stub.store0).1
  = inl (ValueError (unknown_scenario_message "made_up_key")) ∧
  (run_scenario (B := Stub.stub_builtins) (F := Stub.stub_model) "opec_cut" 0 Stub.store0).1
  = inl (IndexError "single positional indexer is out-of-bounds") ∧
  ∃ shocks,
    st_journal (run_scenario (B := Stub.stub_builtins) (F := Stub.stub_model)
                  "opec_cut" 0 Stub.store0).2
    = [ BuildExog zero_shocks 0;
        GetForecast 0 {| columns := exog_cols; rows := [] |};
        BuildExog shocks 0;
        GetForecast 0 {| columns := exog_cols; rows := [] |} ].
Proof.
  split; [by vm_compute |]. split; [by vm_compute |].
  eexists. vm_compute. reflexivity.
Qed.

(* ===================================================================== *)
(** ** Shared state across a run                                          *)
(* ===================================================================== *)

Section SharedState.
Context {B : Builtins} {F : ForecastModel} {E : Explainer}.

(** What the body of the endpoint amounts to, by how far it gets. *)
Lemma run_simulation_body_run (request : app.ScenarioRequest) (st : Store) :
  match parse_user_query (app.query request) with
  | inl e => app.run_simulation_body request st = (inl e, st)
  | inr parsed =>
      let key := p_scenario_key parsed in
      let modifier := default 1.0%float (p_magnitude_modifier parsed) in
      let weeks := default (app.forecast_weeks request) (p_forecast_weeks parsed) in
      match dict_get (st_SCENARIOS st) key with
      | None => app.run_simulation_body request st = (inl (KeyError key), st)
      | Some sc =>
          app.run_simulation_body request st
          = (set_shocks key (app.modified_shocks modifier (shocks sc)) ;;;
             (r <- run_scenario key weeks ;;
              (set_shocks key (shocks sc) ;;;
               ret {| app.result := r;
                      app.shocks_applied := app.modified_shocks modifier (shocks sc) |}))) st
      end
  end.
Proof.
  unfold app.run_simulation_body.
  destruct (parse_user_query (app.query request)) as [e | parsed]; [done |].
  cbv zeta.
  destruct (dict_get (st_SCENARIOS st) (p_scenario_key parsed)) as [sc |] eqn:Hget;
    erewrite bind_inr by reflexivity;
    unfold bind at 1; rewrite get_shocks_run, Hget; [| done].
  unfold bind at 1. rewrite get_shocks_run, Hget. done.
Qed.

Lemma run_interactive_body_run (parsed : ParsedQuery) (st : Store) :
  let key := p_scenario_key parsed in
  let modifier := default 1.0%float (p_magnitude_modifier parsed) in
  let weeks := default 12%Z (p_forecast_weeks parsed) in
  match dict_get (st_SCENARIOS st) key with
  | None => test.run_interactive_body parsed st = (inl (KeyError key), st)
  | Some sc =>
      test.run_interactive_body parsed st
      = (set_shocks key (app.modified_shocks modifier (shocks sc)) ;;;
         (r <- run_scenario key weeks ;; (set_shocks key (shocks sc) ;;; ret r))) st
  end.
Proof.
  unfold test.run_interactive_body. cbv zeta.
  destruct (dict_get (st_SCENARIOS st) (p_scenario_key parsed)) as [sc |] eqn:Hget;
    unfold bind at 1; rewrite get_shocks_run, Hget; [| done].
  unfold bind at 1. rewrite get_shocks_run, Hget.
  by rewrite scale_in_place_fmap.
Qed.

Lemma run_simulation_store (request : app.ScenarioRequest) (st : Store) :
  (app.run_simulation request st).2 = (app.run_simulation_body request st).2 ∧
  ∀ sim, (app.run_simulation request st).1 = inr sim →
         (app.run_simulation_body request st).1 = inr sim.
Proof.
  unfold app.run_simulation, try_except.
  destruct (app.run_simulation_body request st) as [[e | sim] st']; [| done].
  split; [by destruct (is_ValueError e) | by destruct (is_ValueError e)].
Qed.

(** C1, as the code has it.  The engine's [run_scenario] writes neither the
    catalog nor the snapshot at any point, whatever its outcome.  A scaled run
    driven by a parsed query (the endpoint and the interactive loop) never
    writes the snapshot, writes the scaled mapping over the stored shocks of
    the selected scenario before the engine runs, and, when the engine
    returns, leaves the catalog equal to what it was. *)
Theorem scaled_run_restores_catalog (st : Store) :
  (∀ key weeks, untouched st (run_scenario key weeks st).2) ∧
  (∀ request,
     let out := app.run_simulation request st in
     st_latest out.2 = st_latest st ∧
     (∀ sim, out.1 = inr sim → st_SCENARIOS out.2 = st_SCENARIOS st) ∧
     (∀ parsed sc,
        parse_user_query (app.query request) = inr parsed →
        dict_get (st_SCENARIOS st) (p_scenario_key parsed) = Some sc →
        ∃ evs, st_journal out.2
               = st_journal st
                 ++ SetShocks (p_scenario_key parsed)
                      (app.modified_shocks (default 1.0%float (p_magnitude_modifier parsed))
                                           (shocks sc)) :: evs)) ∧
  (∀ parsed,
     let out := test.run_interactive_body parsed st in
     st_latest out.2 = st_latest st ∧
     (∀ r, out.1 = inr r → st_SCENARIOS out.2 = st_SCENARIOS st) ∧
     (∀ sc,
        dict_get (st_SCENARIOS st) (p_scenario_key parsed) = Some sc →
        ∃ evs, st_journal out.2
               = st_journal st
                 ++ SetShocks (p_scenario_key parsed)
                      (app.modified_shocks (default 1.0%float (p_magnitude_modifier parsed))
                                           (shocks sc)) :: evs)).
Proof.
  split; [| split].
  - intros key weeks. apply read_only_run_scenario.
  - intros request out. subst out.
    destruct (run_simulation_store request st) as [-> Hret].
    pose proof (run_simulation_body_run request st) as Hbody.
    destruct (parse_user_query (app.query request)) as [e | parsed].
    { rewrite Hbody. cbn [fst snd] in *. split; [done |]. split; [| done].
      intros sim Hsim. apply Hret in Hsim. by rewrite Hbody in Hsim. }
    cbv zeta in Hbody.
    destruct (dict_get (st_SCENARIOS st) (p_scenario_key parsed)) as [sc |] eqn:Hget.
    + destruct (app.run_simulation_body request st) as [res st'] eqn:Hrun.
      symmetry in Hbody.
      destruct (overwrite_restore_run _ _ _ _ _ _ _ _ Hget
                  (read_only_run_scenario _ _) Hbody) as (Hl & Hc & Hj).
      cbn [fst snd] in *. split; [done |]. split.
      * intros sim Hsim. apply Hret in Hsim. by eapply Hc.
      * intros ? sc' [= <-] Hsc'. rewrite Hget in Hsc'. by injection Hsc' as <-.
    + rewrite Hbody. cbn [fst snd] in *. split; [done |]. split.
      * intros sim Hsim. apply Hret in Hsim. by rewrite Hbody in Hsim.
      * intros ? sc' [= <-] Hsc'. by rewrite Hget in Hsc'.
  - intros parsed out. subst out.
    pose proof (run_interactive_body_run parsed st) as Hbody. cbv zeta in Hbody.
    destruct (dict_get (st_SCENARIOS st) (p_scenario_key parsed)) as [sc |] eqn:Hget.
    + destruct (test.run_interactive_body parsed st) as [res st'] eqn:Hrun.
      symmetry in Hbody.
      destruct (overwrite_restore_run _ _ _ id _ _ _ _ Hget
                  (read_only_run_scenario _ _) Hbody) as (Hl & Hc & Hj).
      cbn [fst snd]. split; [done |]. split; [by eauto |].
      intros sc' Hsc'. by injection Hsc' as <-.
    + rewrite Hbody. cbn [fst snd]. done.
Qed.

End SharedState.

Lemma scaled_run_restores_catalog_witness :
  st_SCENARIOS
    (app.run_simulation (B := Stub.stub_builtins) (F := Stub.stub_model)
       (E := Stub.stub_explainer Stub.double_opec) Stub.request0 Stub.store0).2
  = SCENARIOS.
Proof.
  destruct (scaled_run_restores_catalog (B := Stub.stub_builtins) (F := Stub.stub_model)
              (E := Stub.stub_explainer Stub.double_opec) Stub.store0) as (_ & Happ & _).
  destruct (Happ Stub.request0) as (_ & Hcatalog & _).
  eapply Hcatalog. vm_compute. reflexivity.
Defined.

(** C1, as stated, fails.  The endpoint, asked for the OPEC cut at twice its
    magnitude, writes the doubled shocks into the catalog before the engine
    runs: the stored VIX shock of -2 reads -4 while the run is in flight. *)
Lemma simulate_overwrites_catalog :
  let out := app.run_simulation (B := Stub.stub_builtins) (F := Stub.stub_model)
               (E := Stub.stub_explainer Stub.double_opec) Stub.request0 Stub.store0 in
  ¬ untouched Stub.store0 out.2 ∧
  ∃ scaled rest,
    st_journal out.2 = SetShocks "opec_cut" scaled :: rest ∧
    scaled !! "vix_diff" = Some (-4)%float ∧
    Stub.opec_shocks !! "vix_diff" = Some (-2)%float ∧
    dict_get SCENARIOS "opec_cut"
    = Some {| name := "OPEC Production Cut (10%)";
              description := "OPEC announces a coordinated 10% production cut. Supply tightens, inventories draw down, risk sentiment improves.";
              shocks := Stub.opec_shocks |}.
Proof.
  intros out.
  assert (Hhead : ∃ scaled rest,
            st_journal out.2 = SetShocks "opec_cut" scaled :: rest ∧
            scaled !! "vix_diff" = Some (-4)%float).
  { eexists _, _. split; [vm_compute; reflexivity | vm_compute; reflexivity]. }
  destruct Hhead as (scaled & rest & Hj & Hvix). split.
  - intros (_ & _ & evs & Hevs & Hnone).
    rewrite Hj in Hevs. cbn in Hevs. subst evs.
    apply Forall_cons in Hnone as [Hset _]. by apply Hset.
  - exists scaled, rest.
    split; [done |]. split; [done |]. split; [by vm_compute | reflexivity].
Qed.

(** What the restore step misses: when the engine raises, nothing puts the
    stored shocks back, and the catalog keeps the scaled mapping. *)
Lemma failed_simulation_keeps_scaled_shocks :
  let out := app.run_simulation (B := Stub.stub_builtins) (F := Stub.failing_model)
               (E := Stub.stub_explainer Stub.double_opec) Stub.request0 Stub.store0 in
  out.1 = inl (HTTPException 500 "model unavailable") ∧
  ∃ sc, dict_get (st_SCENARIOS out.2) "opec_cut" = Some sc ∧
        shocks sc !! "vix_diff" = Some (-4)%float.
Proof.
  intros out. split; [by vm_compute |].
  eexists. split; [vm_compute; reflexivity | by vm_compute].
Qed.

(* ===================================================================== *)
(** ** Magnitude scaling                                                  *)
(* ===================================================================== *)

(** C9, as the code has it.  Scaling computes a new mapping over the same
    keys in which every value is the input's value times the modifier, the
    same mapping on the endpoint and on the interactive path, and reading the
    stored shocks to scale them changes nothing in the store.  Scaling by 1.0
    returns a mapping equal to the input; scaling by 0.0 yields shocks that
    all compare equal to zero when no input value is NaN or infinite. *)
Theorem scaling_is_pointwise (shocks : gmap string float) (modifier : float) :
  (∀ k, app.modified_shocks modifier shocks !! k
        = (λ v, v * modifier)%float <$> shocks !! k) ∧
  dom (app.modified_shocks modifier shocks) = dom shocks ∧
  test.scale_in_place modifier shocks = app.modified_shocks modifier shocks ∧
  (∀ key st, (app.get_shocks key st).2 = st) ∧
  app.modified_shocks 1.0 shocks = shocks ∧
  test.scale_in_place 1.0 shocks = shocks ∧
  (finite_shocks shocks →
   map_Forall (λ _ v, (v =? 0)%float = true) (app.modified_shocks 0.0 shocks) ∧
   map_Forall (λ _ v, (v =? 0)%float = true) (test.scale_in_place 0.0 shocks)).
Proof.
  assert (Hone : app.modified_shocks 1.0 shocks = shocks).
  { unfold app.modified_shocks. apply map_eq. intros k. rewrite lookup_fmap.
    destruct (shocks !! k) as [v |]; [| done]. cbn. by rewrite Float64.mul_one_r. }
  split; [| split; [| split; [| split; [| split; [| split]]]]].
  - intros k. unfold app.modified_shocks. by rewrite lookup_fmap.
  - unfold app.modified_shocks. by rewrite dom_fmap_L.
  - apply scale_in_place_fmap.
  - intros key st. by rewrite get_shocks_run.
  - exact Hone.
  - by rewrite scale_in_place_fmap.
  - intros Hfinite.
    assert (Hzero : map_Forall (λ _ v, (v =? 0)%float = true)
                      (app.modified_shocks 0.0 shocks)).
    { unfold app.modified_shocks. intros k v'. rewrite lookup_fmap.
      destruct (shocks !! k) as [v |] eqn:Hk; [| done]. intros [= <-].
      apply Float64.mul_zero_r_finite. by apply (Hfinite k). }
    split; [exact Hzero | by rewrite scale_in_place_fmap].
Qed.

Lemma opec_shocks_finite : finite_shocks Stub.opec_shocks.
Proof.
  unfold finite_shocks, Stub.opec_shocks.
  repeat (apply map_Forall_insert_2; [reflexivity |]).
  apply map_Forall_empty.
Qed.

Lemma scaling_is_pointwise_witness :
  map_Forall (λ _ v, (v =? 0)%float = true) (app.modified_shocks 0.0 Stub.opec_shocks).
Proof.
  destruct (scaling_is_pointwise Stub.opec_shocks 0.0) as (_ & _ & _ & _ & _ & _ & Hzero).
  by destruct (Hzero opec_shocks_finite).
Defined.

(** C9, as stated, fails for a mapping with an infinite value: scaled by 0.0
    it holds NaN, which is not zero. *)
Lemma scaling_infinity_by_zero_is_nan :
  app.modified_shocks 0.0 {["vix_diff" := infinity]} !! "vix_diff" = Some nan ∧
  test.scale_in_place 0.0 {["vix_diff" := infinity]} !! "vix_diff" = Some nan ∧
  (nan =? 0)%float = false.
Proof. vm_compute. done. Qed.

(* ===================================================================== *)
(** ** What a run reads, and what it returns                              *)
(* ===================================================================== *)

Section RunAnatomy.
Context {B : Builtins} {F : ForecastModel}.

(** The outcome of [run_scenario] is decided by the catalog entry of the
    key, the catalog's keys and the snapshot: not by the journal, and not by
    the entries of other scenarios. *)
Lemma run_scenario_reads_only (st1 st2 : Store) (key : string) (weeks : Z) :
  st_latest st1 = st_latest st2 →
  dict_get (st_SCENARIOS st1) key = dict_get (st_SCENARIOS st2) key →
  dict_keys (st_SCENARIOS st1) = dict_keys (st_SCENARIOS st2) →
  (run_scenario key weeks st1).1 = (run_scenario key weeks st2).1.
Proof.
  intros Hlatest Hget Hkeys.
  destruct (dict_get (st_SCENARIOS st2) key) as [sc |] eqn:Hget2.
  - destruct (get_forecast weeks (exog_frame (st_latest st2) zero_shocks weeks))
      as [e | p0] eqn:Hp0.
    { rewrite (run_scenario_baseline_raises key sc weeks st1 e) by congruence.
      by rewrite (run_scenario_baseline_raises key sc weeks st2 e). }
    destruct (get_forecast weeks (exog_frame (st_latest st2) (shocks sc) weeks))
      as [e | p1] eqn:Hp1.
    { rewrite (run_scenario_shocked_raises key sc weeks st1 p0 e) by congruence.
      by rewrite (run_scenario_shocked_raises key sc weeks st2 p0 e). }
    rewrite (run_scenario_forecasts key sc weeks st1 p0 p1) by congruence.
    rewrite (run_scenario_forecasts key sc weeks st2 p0 p1) by congruence.
    cbn [fst]. by rewrite Hlatest.
  - rewrite (run_scenario_unknown key weeks st1) by congruence.
    rewrite (run_scenario_unknown key weeks st2) by congruence.
    cbn [fst]. by rewrite Hkeys.
Qed.

(** What a returned result is made of. *)
Lemma run_scenario_inr (st st' : Store) (key : string) (weeks : Z) (r : ScenarioResult) :
  run_scenario key weeks st = (inr r, st') →
  ∃ sc p0 p1,
    dict_get (st_SCENARIOS st) key = Some sc ∧
    get_forecast weeks (exog_frame (st_latest st) zero_shocks weeks) = inr p0 ∧
    get_forecast weeks (exog_frame (st_latest st) (shocks sc) weeks) = inr p1 ∧
    r_shocks r = shocks sc ∧
    scenario_name r = name sc ∧
    current_price r = brent_price (st_latest st) ∧
    baseline_forecast r = predicted_mean p0 ∧
    shocked_forecast r = predicted_mean p1 ∧
    st' = after_scenario st (shocks sc) weeks.
Proof.
  destruct (dict_get (st_SCENARIOS st) key) as [sc |] eqn:Hget.
  2: { by rewrite (run_scenario_unknown key weeks st Hget). }
  destruct (get_forecast weeks (exog_frame (st_latest st) zero_shocks weeks))
    as [e | p0] eqn:Hp0.
  { by rewrite (run_scenario_baseline_raises key sc weeks st e Hget Hp0). }
  destruct (get_forecast weeks (exog_frame (st_latest st) (shocks sc) weeks))
    as [e | p1] eqn:Hp1.
  { by rewrite (run_scenario_shocked_raises key sc weeks st p0 e Hget Hp0 Hp1). }
  rewrite (run_scenario_forecasts key sc weeks st p0 p1 Hget Hp0 Hp1).
  destruct (iloc (predicted_mean p0) (-1)); [done |].
  destruct (iloc (predicted_mean p1) (-1)); [done |].
  destruct (iloc (predicted_mean p0) 0); [done |].
  destruct (iloc (predicted_mean p1) 0); [done |].
  intros [= <- <-]. exists sc, p0, p1. done.
Qed.

Lemma set_shocks_run (key : string) (new_shocks : gmap string float) (st : Store) sc :
  dict_get (st_SCENARIOS st) key = Some sc →
  set_shocks key new_shocks st = (inr (), overwritten st key new_shocks).
Proof. intros Hget. unfold set_shocks. by rewrite Hget. Qed.


(** The value of scale, overwrite, compute, restore: the value of the
    computation in the middle, run on the overwritten store. *)
Lemma overwrite_restore_value {A C} (key : string) (scaled : gmap string float)
    (m : M A) (k : A → C) (st : Store) scenario :
  dict_get (st_SCENARIOS st) key = Some scenario →
  read_only m →
  ((set_shocks key scaled ;;; (r <- m ;; (set_shocks key (shocks scenario) ;;; ret (k r)))) st).1
  = match (m (overwritten st key scaled)).1 with
    | inl e => inl e
    | inr r => inr (k r)
    end.
Proof.
  intros Hget Hm. unfold bind at 1. rewrite (set_shocks_run key scaled st scenario Hget).
  unfold bind at 1. specialize (Hm (overwritten st key scaled)).
  destruct (m (overwritten st key scaled)) as [[e | r] st2]; [done |].
  cbn [snd fst] in *. destruct Hm as (Hc & _ & _).
  unfold bind, set_shocks, ret. rewrite Hc. cbn [overwritten st_SCENARIOS].
  by rewrite dict_get_alter, Hget.
Qed.

End RunAnatomy.

(* ===================================================================== *)
(** ** POST /simulate-direct                                              *)
(* ===================================================================== *)

(** X1. The direct endpoint never writes the catalog or the snapshot: unlike
    the query-driven endpoint it runs the engine on the stored shocks, and
    at no point of the call, whatever its outcome, is a scenario's shock
    mapping overwritten. *)
Theorem direct_simulation_writes_nothing
    {B : Builtins} {F : ForecastModel} {N : Numerics}
    (key : string) (weeks : Z) (st : Store) :
  untouched st (app.run_direct_simulation key weeks st).2.
Proof.
  revert st. change (read_only (app.run_direct_simulation key weeks)).
  unfold app.run_direct_simulation.
  apply read_only_bind; [apply read_only_read |]. intros st.
  destruct (negb (dict_mem (st_SCENARIOS st) key)); [apply read_only_raise |].
  apply read_only_bind; [apply read_only_run_scenario |]. intros r.
  apply read_only_ret.
Qed.

(** X2. On the direct endpoint a key outside the catalog is answered with an
    [HTTPException] of status 400 that lists the catalog's keys, before the
    engine is entered (the store is returned as it was given).  For a key of
    the catalog there is no handler: an exception of the engine leaves the
    endpoint as it is, not as an [HTTPException]. *)
Theorem direct_simulation_errors
    {B : Builtins} {F : ForecastModel} {N : Numerics}
    (st : Store) (key : string) (weeks : Z) :
  (dict_mem (st_SCENARIOS st) key = false →
   app.run_direct_simulation key weeks st
   = (inl (HTTPException 400
             ("Unknown scenario. Available: " +:+ repr_list (dict_keys (st_SCENARIOS st)))),
      st)) ∧
  (dict_mem (st_SCENARIOS st) key = true →
   ∀ e, (run_scenario key weeks st).1 = inl e →
        app.run_direct_simulation key weeks st = (inl e, (run_scenario key weeks st).2)).
Proof.
  split; intros Hmem.
  - unfold app.run_direct_simulation.
    erewrite bind_inr by reflexivity. by rewrite Hmem.
  - intros e He. unfold app.run_direct_simulation.
    erewrite bind_inr by reflexivity. rewrite Hmem. cbn [negb].
    destruct (run_scenario key weeks st) as [[e' | r] st'] eqn:Hrun; [| done].
    cbn [fst snd] in *. injection He as ->. by apply bind_inl.
Qed.

Lemma direct_simulation_errors_witness :
  (app.run_direct_simulation (B := Stub.stub_builtins) (F := Stub.stub_model)
     (N := Stub.stub_numerics) "made_up_key" 12 Stub.store0).1
  = inl (HTTPException 400
           "Unknown scenario. Available: ['opec_cut', 'global_recession', 'rate_hike', 'geopolitical_tension', 'demand_boom']") ∧
  (app.run_direct_simulation (B := Stub.stub_builtins) (F := Stub.stub_model)
     (N := Stub.stub_numerics) "opec_cut" 0 Stub.store0).1
  = inl (IndexError "single positional indexer is out-of-bounds").
Proof.
  destruct (direct_simulation_errors (B := Stub.stub_builtins) (F := Stub.stub_model)
              (N := Stub.stub_numerics) Stub.store0 "made_up_key" 12) as [Hunknown _].
  destruct (direct_simulation_errors (B := Stub.stub_builtins) (F := Stub.stub_model)
              (N := Stub.stub_numerics) Stub.store0 "opec_cut" 0) as [_ Hknown].
  split.
  - by rewrite (Hunknown eq_refl).
  - by rewrite (Hknown eq_refl (IndexError "single positional indexer is out-of-bounds")
                  ltac:(by vm_compute)).
Defined.

(* ===================================================================== *)
(** ** POST /simulate: scaling, errors                                    *)
(* ===================================================================== *)

Lemma modified_shocks_one (shocks : gmap string float) :
  app.modified_shocks 1.0 shocks = shocks.
Proof.
  unfold app.modified_shocks. apply map_eq. intros k. rewrite lookup_fmap.
  destruct (shocks !! k) as [v |]; [| done]. cbn. by rewrite Float64.mul_one_r.
Qed.

Section Simulate.
Context {B : Builtins} {F : ForecastModel} {E : Explainer}.

(** The endpoint's body for a parsed query over a known key. *)
Lemma run_simulation_body_known (request : app.ScenarioRequest) (st : Store) parsed sc :
  parse_user_query (app.query request) = inr parsed →
  dict_get (st_SCENARIOS st) (p_scenario_key parsed) = Some sc →
  let key := p_scenario_key parsed in
  let scaled := app.modified_shocks (default 1.0%float (p_magnitude_modifier parsed)) (shocks sc) in
  let weeks := default (app.forecast_weeks request) (p_forecast_weeks parsed) in
  app.run_simulation_body request st
  = (set_shocks key scaled ;;;
     (r <- run_scenario key weeks ;;
      (set_shocks key (shocks sc) ;;;
       ret {| app.result := r; app.shocks_applied := scaled |}))) st.
Proof.
  intros Hparse Hget. pose proof (run_simulation_body_run request st) as Hbody.
  rewrite Hparse in Hbody. cbv zeta in Hbody. by rewrite Hget in Hbody.
Qed.

Lemma run_simulation_handlers (request : app.ScenarioRequest) (st : Store) :
  app.run_simulation request st
  = match app.run_simulation_body request st with
    | (inl e, st') =>
        (inl (HTTPException (if is_ValueError e then 400 else 500) (str_exn e)), st')
    | (inr sim, st') => (inr sim, st')
    end.
Proof.
  unfold app.run_simulation, try_except.
  destruct (app.run_simulation_body request st) as [[e | sim] st']; [| done].
  by destruct (is_ValueError e).
Qed.

(** X3. When the parsed query carries no magnitude modifier, or the modifier
    1.0, the endpoint answers with what [run_scenario] gives on the catalog
    as stored: the engine's result with the stored shocks as the shocks
    applied, or the engine's exception turned into an [HTTPException] (400
    for a [ValueError], 500 otherwise). *)
Theorem simulate_with_unit_modifier
    (request : app.ScenarioRequest) (st : Store) (parsed : ParsedQuery) (sc : Scenario) :
  parse_user_query (app.query request) = inr parsed →
  p_magnitude_modifier parsed = None ∨ p_magnitude_modifier parsed = Some 1.0%float →
  dict_get (st_SCENARIOS st) (p_scenario_key parsed) = Some sc →
  (app.run_simulation request st).1
  = match (run_scenario (p_scenario_key parsed)
             (default (app.forecast_weeks request) (p_forecast_weeks parsed)) st).1 with
    | inl e => inl (HTTPException (if is_ValueError e then 400 else 500) (str_exn e))
    | inr r => inr {| app.result := r; app.shocks_applied := shocks sc |}
    end.
Proof.
  intros Hparse Hmod Hget.
  assert (Hscaled : app.modified_shocks (default 1.0%float (p_magnitude_modifier parsed))
                      (shocks sc) = shocks sc).
  { destruct Hmod as [-> | ->]; apply modified_shocks_one. }
  rewrite run_simulation_handlers.
  pose proof (run_simulation_body_known request st parsed sc Hparse Hget) as Hbody.
  cbv zeta in Hbody. rewrite Hscaled in Hbody.
  pose proof (overwrite_restore_value (p_scenario_key parsed) (shocks sc)
                (run_scenario (p_scenario_key parsed)
                   (default (app.forecast_weeks request) (p_forecast_weeks parsed)))
                (λ r, {| app.result := r; app.shocks_applied := shocks sc |})
                st sc Hget (read_only_run_scenario _ _)) as Hvalue.
  cbv beta in Hvalue. rewrite <- Hbody in Hvalue.
  rewrite (run_scenario_reads_only (overwritten st (p_scenario_key parsed) (shocks sc)) st)
    in Hvalue.
  - destruct ((run_scenario (p_scenario_key parsed)
                 (default (app.forecast_weeks request) (p_forecast_weeks parsed)) st).1)
      as [e' | r];
      destruct (app.run_simulation_body request st) as [[e | sim] st'];
      cbn [fst] in *; by simplify_eq.
  - done.
  - cbn [overwritten st_SCENARIOS]. rewrite dict_get_alter, Hget. by destruct sc.
  - cbn [overwritten st_SCENARIOS]. apply dict_keys_alter.
Qed.

(** X4. When the endpoint returns, the shocks it reports as applied are the
    stored shocks times the modifier, they are the shocks the engine's result
    carries, and the shocked forecast is the oracle's answer on the matrix
    built from them. *)
Theorem simulate_applies_scaled_shocks
    (request : app.ScenarioRequest) (st st' : Store) (parsed : ParsedQuery) (sc : Scenario)
    (sim : app.Simulation) :
  parse_user_query (app.query request) = inr parsed →
  dict_get (st_SCENARIOS st) (p_scenario_key parsed) = Some sc →
  app.run_simulation request st = (inr sim, st') →
  let scaled := app.modified_shocks (default 1.0%float (p_magnitude_modifier parsed)) (shocks sc) in
  let weeks := default (app.forecast_weeks request) (p_forecast_weeks parsed) in
  app.shocks_applied sim = scaled ∧
  r_shocks (app.result sim) = scaled ∧
  ∃ p1, get_forecast weeks (exog_frame (st_latest st) scaled weeks) = inr p1 ∧
        shocked_forecast (app.result sim) = predicted_mean p1.
Proof.
  intros Hparse Hget Hrun scaled weeks.
  rewrite run_simulation_handlers in Hrun.
  pose proof (run_simulation_body_known request st parsed sc Hparse Hget) as Hbody.
  cbv zeta in Hbody. fold scaled weeks in Hbody.
  pose proof (overwrite_restore_value (p_scenario_key parsed) scaled
                (run_scenario (p_scenario_key parsed) weeks)
                (λ r, {| app.result := r; app.shocks_applied := scaled |})
                st sc Hget (read_only_run_scenario _ _)) as Hvalue.
  cbv beta in Hvalue. rewrite <- Hbody in Hvalue.
  destruct (app.run_simulation_body request st) as [[e | sim'] st''] eqn:Hb; [done |].
  injection Hrun as -> ->. cbn [fst] in Hvalue.
  destruct (run_scenario (p_scenario_key parsed) weeks
              (overwritten st (p_scenario_key parsed) scaled)) as [[e | r] st2] eqn:Hengine;
    [done |].
  cbn [fst] in Hvalue. injection Hvalue as ->. cbn [app.result app.shocks_applied].
  destruct (run_scenario_inr _ _ _ _ _ Hengine)
    as (sc' & p0 & p1 & Hget' & _ & Hp1 & Hshocks & _ & _ & _ & Hshocked & _).
  cbn [overwritten st_SCENARIOS st_latest] in Hget', Hp1.
  rewrite dict_get_alter, Hget in Hget'. cbn in Hget'. injection Hget' as <-.
  cbn [shocks] in *. split; [done |]. split; [done |]. by exists p1.
Qed.


(** X6. When the engine raises inside the endpoint, the failure is answered
    with an [HTTPException] (400 for a [ValueError], 500 otherwise) and the
    stored shocks are not put back: the catalog entry of the scenario keeps
    the scaled mapping, with its name and description, for every later
    caller.  The snapshot is unchanged. *)
Theorem simulate_failure_keeps_scaled_shocks
    (request : app.ScenarioRequest) (st : Store) (parsed : ParsedQuery) (sc : Scenario)
    (e : exn) :
  parse_user_query (app.query request) = inr parsed →
  dict_get (st_SCENARIOS st) (p_scenario_key parsed) = Some sc →
  let key := p_scenario_key parsed in
  let scaled := app.modified_shocks (default 1.0%float (p_magnitude_modifier parsed)) (shocks sc) in
  let weeks := default (app.forecast_weeks request) (p_forecast_weeks parsed) in
  (run_scenario key weeks (overwritten st key scaled)).1 = inl e →
  let out := app.run_simulation request st in
  out.1 = inl (HTTPException (if is_ValueError e then 400 else 500) (str_exn e)) ∧
  dict_get (st_SCENARIOS out.2) key
  = Some {| name := name sc; description := description sc; shocks := scaled |} ∧
  st_latest out.2 = st_latest st.
Proof.
  intros Hparse Hget key scaled weeks Hengine out. subst out.
  pose proof (read_only_run_scenario key weeks (overwritten st key scaled))
    as (Hc & Hl & _).
  destruct (run_scenario key weeks (overwritten st key scaled)) as [[e' | r] st2] eqn:Hrun;
    [| done].
  cbn [fst snd] in *. injection Hengine as ->.
  assert (Hout : app.run_simulation request st
                 = (inl (HTTPException (if is_ValueError e then 400 else 500) (str_exn e)),
                    st2)).
  { rewrite run_simulation_handlers.
    rewrite (run_simulation_body_known request st parsed sc Hparse Hget). cbv zeta.
    fold key scaled weeks.
    erewrite bind_inr by (by apply (set_shocks_run key scaled st sc)).
    by erewrite bind_inl by exact Hrun. }
  rewrite Hout. cbn [fst snd]. split; [done |]. split.
  - rewrite Hc. cbn [overwritten st_SCENARIOS]. unfold key.
    by rewrite dict_get_alter, Hget.
  - by rewrite Hl.
Qed.

End Simulate.

Lemma simulate_with_unit_modifier_witness :
  ∃ r, (run_scenario (B := Stub.stub_builtins) (F := Stub.stub_model)
          "opec_cut" 2 Stub.store0).1 = inr r ∧
       (app.run_simulation (B := Stub.stub_builtins) (F := Stub.stub_model)
          (E := Stub.stub_explainer Stub.plain_opec) Stub.request0 Stub.store0).1
       = inr {| app.result := r; app.shocks_applied := Stub.opec_shocks |}.
Proof.
  rewrite (simulate_with_unit_modifier (B := Stub.stub_builtins) (F := Stub.stub_model)
             (E := Stub.stub_explainer Stub.plain_opec) Stub.request0 Stub.store0
             Stub.plain_opec
             {| name := "OPEC Production Cut (10%)";
                description := "OPEC announces a coordinated 10% production cut. Supply tightens, inventories draw down, risk sentiment improves.";
                shocks := Stub.opec_shocks |}
             eq_refl (or_introl eq_refl) eq_refl).
  change (default (app.forecast_weeks Stub.request0) (p_forecast_weeks Stub.plain_opec))
    with 2%Z.
  change (p_scenario_key Stub.plain_opec) with "opec_cut". cbn [shocks].
  destruct (run_scenario "opec_cut" 2 Stub.store0).1 as [e | r] eqn:Hrun.
  - vm_compute in Hrun. discriminate Hrun.
  - by exists r.
Defined.

Lemma simulate_applies_scaled_shocks_witness :
  ∃ sim st',
    app.run_simulation (B := Stub.stub_builtins) (F := Stub.stub_model)
      (E := Stub.stub_explainer Stub.double_opec) Stub.request0 Stub.store0 = (inr sim, st') ∧
    r_shocks (app.result sim) = app.modified_shocks 2 Stub.opec_shocks.
Proof.
  destruct (app.run_simulation (B := Stub.stub_builtins) (F := Stub.stub_model)
              (E := Stub.stub_explainer Stub.double_opec) Stub.request0 Stub.store0)
    as [[e | sim] st'] eqn:Hrun.
  - vm_compute in Hrun. discriminate Hrun.
  - exists sim, st'. split; [done |].
    by destruct (simulate_applies_scaled_shocks (B := Stub.stub_builtins)
                   (F := Stub.stub_model) (E := Stub.stub_explainer Stub.double_opec)
                   Stub.request0 Stub.store0 st' Stub.double_opec
                   {| name := "OPEC Production Cut (10%)";
                      description := "OPEC announces a coordinated 10% production cut. Supply tightens, inventories draw down, risk sentiment improves.";
                      shocks := Stub.opec_shocks |}
                   sim eq_refl eq_refl Hrun) as (_ & ? & _).
Defined.


Lemma simulate_failure_keeps_scaled_shocks_witness :
  dict_get
    (st_SCENARIOS
       (app.run_simulation (B := Stub.stub_builtins) (F := Stub.failing_model)
          (E := Stub.stub_explainer Stub.double_opec) Stub.request0 Stub.store0).2)
    "opec_cut"
  = Some {| name := "OPEC Production Cut (10%)";
            description := "OPEC announces a coordinated 10% production cut. Supply tightens, inventories draw down, risk sentiment improves.";
            shocks := app.modified_shocks 2 Stub.opec_shocks |}.
Proof.
  destruct (simulate_failure_keeps_scaled_shocks (B := Stub.stub_builtins)
              (F := Stub.failing_model) (E := Stub.stub_explainer Stub.double_opec)
              Stub.request0 Stub.store0 Stub.double_opec
              {| name := "OPEC Production Cut (10%)";
                 description := "OPEC announces a coordinated 10% production cut. Supply tightens, inventories draw down, risk sentiment improves.";
                 shocks := Stub.opec_shocks |}
              (Exception "RuntimeError" "model unavailable") eq_refl eq_refl
              ltac:(by vm_compute)) as (_ & Hentry & _).
  exact Hentry.
Defined.

(* ===================================================================== *)
(** ** Runs next to one another                                           *)
(* ===================================================================== *)

Section Neighbours.
Context {B : Builtins} {F : ForecastModel}.


Lemma set_shocks_latest (key : string) (scaled : gmap string float) (st : Store) :
  st_latest (set_shocks key scaled st).2 = st_latest st.
Proof. unfold set_shocks. by destruct (dict_get (st_SCENARIOS st) key). Qed.


(** X8. The baseline of a run does not depend on the scenario: the
    baseline forecast and the current price of every returned result are
    those [run_baseline] returns for the same horizon, and [run_baseline]
    answers the same while any scenario's shocks are overwritten. *)
Theorem baseline_is_scenario_independent
    (st : Store) (key : string) (weeks : Z) (r : ScenarioResult) :
  (run_scenario key weeks st).1 = inr r →
  ∃ b, (run_baseline weeks st).1 = inr b ∧
       baseline_forecast r = b_forecast_mean b ∧
       current_price r = b_current_price b ∧
       ∀ key' scaled, (run_baseline weeks (set_shocks key' scaled st).2).1 = inr b.
Proof.
  intros Hr. destruct (run_scenario key weeks st) as [res st'] eqn:Hrun.
  cbn [fst] in Hr. subst res.
  destruct (run_scenario_inr _ _ _ _ _ Hrun)
    as (sc & p0 & _ & _ & Hp0 & _ & _ & _ & Hprice & Hbase & _).
  eexists. rewrite run_baseline_run, Hp0. cbn [fst].
  split; [reflexivity |]. cbn [b_forecast_mean b_current_price].
  split; [done |]. split; [done |].
  intros key' scaled. rewrite run_baseline_run, set_shocks_latest, Hp0. done.
Qed.

(** X9. The outcome of a run does not depend on what ran before: after any
    run of the engine, whatever its outcome, the same call has the same
    outcome again. *)
Theorem repeated_run_same_outcome
    (st : Store) (key key' : string) (weeks weeks' : Z) :
  (run_scenario key weeks (run_scenario key' weeks' st).2).1
  = (run_scenario key weeks st).1.
Proof.
  destruct (read_only_run_scenario key' weeks' st) as (Hc & Hl & _).
  apply run_scenario_reads_only; by rewrite ?Hc, ?Hl.
Qed.

End Neighbours.


Lemma baseline_is_scenario_independent_witness :
  ∃ b, (run_baseline (F := Stub.stub_model) 2 Stub.store0).1 = inr b ∧
       b_forecast_mean b = [75.4915; 75.4915]%float.
Proof.
  destruct (run_scenario (B := Stub.stub_builtins) (F := Stub.stub_model)
              "demand_boom" 2 Stub.store0).1 as [e | r] eqn:Hrun.
  - vm_compute in Hrun. discriminate Hrun.
  - destruct (baseline_is_scenario_independent (B := Stub.stub_builtins)
                (F := Stub.stub_model) Stub.store0 "demand_boom" 2 r Hrun)
      as (b & Hb & _ & _ & _).
    exists b. split; [exact Hb |].
    vm_compute in Hb. by injection Hb as <-.
Defined.

(* ===================================================================== *)
(** ** After a query-driven run                                           *)
(* ===================================================================== *)

Section Aftermath.
Context {B : Builtins} {F : ForecastModel} {E : Explainer}.

(** X10. After a call of the endpoint that returned, every run of the engine
    has the outcome it would have had before the call: the scaling of one
    request is not seen by the requests that follow it. *)
Theorem simulate_returned_leaves_no_trace
    (request : app.ScenarioRequest) (st st' : Store) (sim : app.Simulation)
    (key : string) (weeks : Z) :
  app.run_simulation request st = (inr sim, st') →
  (run_scenario key weeks st').1 = (run_scenario key weeks st).1.
Proof.
  rewrite run_simulation_handlers.
  pose proof (run_simulation_body_run request st) as Hbody.
  destruct (parse_user_query (app.query request)) as [e | parsed].
  { by rewrite Hbody. }
  cbv zeta in Hbody.
  destruct (dict_get (st_SCENARIOS st) (p_scenario_key parsed)) as [sc |] eqn:Hget.
  2: { by rewrite Hbody. }
  destruct (app.run_simulation_body request st) as [[e | sim'] st''] eqn:Hrun; [done |].
  intros [= -> ->]. symmetry in Hbody.
  destruct (overwrite_restore_run _ _ _ _ _ _ _ _ Hget (read_only_run_scenario _ _) Hbody)
    as (Hl & Hc & _).
  apply run_scenario_reads_only; [done | |]; by rewrite (Hc sim).
Qed.

Lemma listing_alter (f : Scenario → Scenario) (key : string) (catalog : dict Scenario) :
  (∀ sc, name (f sc) = name sc ∧ description (f sc) = description sc) →
  listing (dict_alter f key catalog) = listing catalog.
Proof.
  intros Hf. induction catalog as [| [k sc] catalog IH]; [done |].
  cbn [dict_alter]. destruct (String.eqb key k); cbn [listing map fst snd].
  - destruct (Hf sc) as [-> ->]. done.
  - f_equal. exact IH.
Qed.

Lemma keeps_listing_set_shocks (key : string) (new_shocks : gmap string float) :
  keeps_listing (set_shocks key new_shocks).
Proof.
  intros st. unfold set_shocks.
  destruct (dict_get (st_SCENARIOS st) key); [| done].
  cbn [snd st_SCENARIOS]. by apply listing_alter.
Qed.

Lemma keeps_listing_read_only {A} (m : M A) : read_only m → keeps_listing m.
Proof. intros Hm st. destruct (Hm st) as (-> & _). done. Qed.

Lemma keeps_listing_bind {A C} (m : M A) (k : A → M C) :
  keeps_listing m → (∀ a, keeps_listing (k a)) → keeps_listing (bind m k).
Proof.
  intros Hm Hk st. unfold bind. specialize (Hm st).
  destruct (m st) as [[e | a] st1]; [done |].
  cbn [snd] in Hm. rewrite <- Hm. apply Hk.
Qed.

Lemma keeps_listing_get_shocks (key : string) : keeps_listing (app.get_shocks key).
Proof. intros st. by rewrite get_shocks_run. Qed.

Lemma keeps_listing_run_simulation_body (request : app.ScenarioRequest) :
  keeps_listing (app.run_simulation_body request).
Proof.
  unfold app.run_simulation_body.
  apply keeps_listing_bind; [by apply keeps_listing_read_only, read_only_lift |].
  intros parsed. cbv zeta.
  apply keeps_listing_bind; [apply keeps_listing_get_shocks |]. intros current.
  apply keeps_listing_bind; [apply keeps_listing_get_shocks |]. intros original.
  apply keeps_listing_bind; [apply keeps_listing_set_shocks |]. intros _.
  apply keeps_listing_bind;
    [by apply keeps_listing_read_only, read_only_run_scenario |]. intros r.
  apply keeps_listing_bind; [apply keeps_listing_set_shocks |]. intros _.
  by apply keeps_listing_read_only, read_only_ret.
Qed.

Lemma list_scenarios_run (st : Store) :
  app.list_scenarios st = (inr (listing (st_SCENARIOS st)), st).
Proof. reflexivity. Qed.

(** X11. What [GET /scenarios] answers (the keys in catalog order, each with
    its name and description) is the same after a call of the query-driven
    endpoint as before it, whatever the call's outcome, and the same after a
    pass of the interactive loop: a failed run leaves scaled shocks behind
    but never a changed key, name or description. *)
Theorem listing_survives_scaled_runs (st : Store) :
  (∀ request,
     (app.list_scenarios (app.run_simulation request st).2).1 = (app.list_scenarios st).1) ∧
  (∀ parsed,
     (app.list_scenarios (test.run_interactive_body parsed st).2).1
     = (app.list_scenarios st).1).
Proof.
  split.
  - intros request. rewrite !list_scenarios_run. cbn [fst]. f_equal.
    rewrite run_simulation_handlers.
    pose proof (keeps_listing_run_simulation_body request st) as Hbody.
    by destruct (app.run_simulation_body request st) as [[e | sim] st'].
  - intros parsed. rewrite !list_scenarios_run. cbn [fst]. f_equal.
    revert st. change (keeps_listing (test.run_interactive_body parsed)).
    unfold test.run_interactive_body. cbv zeta.
    apply keeps_listing_bind; [apply keeps_listing_get_shocks |]. intros copied.
    apply keeps_listing_bind; [apply keeps_listing_get_shocks |]. intros original.
    apply keeps_listing_bind; [apply keeps_listing_set_shocks |]. intros _.
    apply keeps_listing_bind;
      [by apply keeps_listing_read_only, read_only_run_scenario |]. intros r.
    apply keeps_listing_bind; [apply keeps_listing_set_shocks |]. intros _.
    by apply keeps_listing_read_only, read_only_ret.
Qed.

End Aftermath.

Lemma simulate_returned_leaves_no_trace_witness :
  ∃ sim st',
    app.run_simulation (B := Stub.stub_builtins) (F := Stub.stub_model)
      (E := Stub.stub_explainer Stub.double_opec) Stub.request0 Stub.store0 = (inr sim, st') ∧
    (run_scenario (B := Stub.stub_builtins) (F := Stub.stub_model) "opec_cut" 3 st').1
    = (run_scenario (B := Stub.stub_builtins) (F := Stub.stub_model) "opec_cut" 3 Stub.store0).1.
Proof.
  destruct (app.run_simulation (B := Stub.stub_builtins) (F := Stub.stub_model)
              (E := Stub.stub_explainer Stub.double_opec) Stub.request0 Stub.store0)
    as [[e | sim] st'] eqn:Hrun.
  - vm_compute in Hrun. discriminate Hrun.
  - exists sim, st'. split; [done |].
    exact (simulate_returned_leaves_no_trace (B := Stub.stub_builtins)
             (F := Stub.stub_model) (E := Stub.stub_explainer Stub.double_opec)
             Stub.request0 Stub.store0 st' sim "opec_cut" 3 Hrun).
Defined.

(* ===================================================================== *)
(** ** The weekly table and the arrow                                     *)
(* ===================================================================== *)

Lemma weekly_forecasts_lookup {N : Numerics} (r : ScenarioResult) (i : nat)
    (wf : app.WeeklyForecast) :
  app.weekly_forecasts r !! i = Some wf →
  ∃ b s, baseline_forecast r !! i = Some b ∧ shocked_forecast r !! i = Some s ∧
         wf = {| app.week := Z.of_nat i + 1;
                 app.wf_baseline := float_round b 2;
                 app.wf_scenario := float_round s 2;
                 app.wf_change := float_round (s - b)%float 2 |}.
Proof.
  unfold app.weekly_forecasts. rewrite list_lookup_imap.
  destruct (zip (baseline_forecast r) (shocked_forecast r) !! i) as [[b s] |] eqn:Hzip;
    [| done].
  apply lookup_zip_Some in Hzip as [Hb Hs]. cbn. intros [= <-]. by exists b, s.
Qed.

(** X12. For a run that returned, under the oracle contract and a horizon
    of at least one week, the weekly table of the response has exactly one
    entry per week, numbered from 1 in order, and entry [i] holds the rounded
    baseline and shocked forecasts of week [i] and the rounding of their
    unrounded difference. *)
Theorem weekly_forecasts_aligned
    {B : Builtins} {F : ForecastModel} {N : Numerics}
    (st : Store) (key : string) (weeks : Z) (r : ScenarioResult) :
  oracle_contract F →
  (1 ≤ weeks)%Z →
  (run_scenario key weeks st).1 = inr r →
  Z.of_nat (length (app.weekly_forecasts r)) = weeks ∧
  ∀ i wf, app.weekly_forecasts r !! i = Some wf →
    app.week wf = (Z.of_nat i + 1)%Z ∧
    ∃ b s, baseline_forecast r !! i = Some b ∧ shocked_forecast r !! i = Some s ∧
           app.wf_baseline wf = float_round b 2 ∧
           app.wf_scenario wf = float_round s 2 ∧
           app.wf_change wf = float_round (s - b)%float 2.
Proof.
  intros Horacle Hweeks Hr. split.
  - destruct (run_scenario key weeks st) as [res st'] eqn:Hrun. cbn [fst] in Hr. subst res.
    destruct (run_scenario_inr _ _ _ _ _ Hrun)
      as (sc & p0 & p1 & _ & Hp0 & Hp1 & _ & _ & _ & Hb & Hs & _).
    destruct (Horacle weeks _ Hweeks (exog_frame_length (st_latest st) zero_shocks weeks))
      as (q0 & Hq0 & Hl0).
    destruct (Horacle weeks _ Hweeks (exog_frame_length (st_latest st) (shocks sc) weeks))
      as (q1 & Hq1 & Hl1).
    assert (q0 = p0) as -> by congruence. assert (q1 = p1) as -> by congruence.
    unfold app.weekly_forecasts. rewrite length_imap, length_zip_with, Hb, Hs. lia.
  - intros i wf Hwf.
    destruct (weekly_forecasts_lookup r i wf Hwf) as (b & s & Hb & Hs & ->).
    split; [done |]. by exists b, s.
Qed.

Lemma weekly_forecasts_aligned_witness :
  ∃ r, (run_scenario (B := Stub.stub_builtins) (F := Stub.stub_model)
          "rate_hike" 3 Stub.store0).1 = inr r ∧
       length (app.weekly_forecasts (N := Stub.stub_numerics) r) = 3%nat.
Proof.
  destruct (run_scenario (B := Stub.stub_builtins) (F := Stub.stub_model)
              "rate_hike" 3 Stub.store0).1 as [e | r] eqn:Hrun.
  - vm_compute in Hrun. discriminate Hrun.
  - exists r. split; [done |].
    destruct (weekly_forecasts_aligned (B := Stub.stub_builtins) (F := Stub.stub_model)
                (N := Stub.stub_numerics) Stub.store0 "rate_hike" 3 r
                stub_model_contract ltac:(lia) Hrun) as [Hlen _].
    lia.
Defined.

(** X13. When the two forecasts are the same value the summary points down:
    the arrow is the falling chart and the formatted text carries no sign,
    because the test is [diff > 0] and a value minus itself is 0.0 or NaN. *)
Theorem unchanged_forecast_points_down {B : Builtins} (x : float) :
  arrow (format_price_change x x) = chart_down ∧
  formatted (format_price_change x x)
  = chart_down +:+ " $" +:+ format_fixed 2 (x - x)%float +:+ "/barrel ("
      +:+ format_fixed 1 (((x - x) / x) * 100)%float +:+ "%)".
Proof.
  unfold format_price_change. cbn [arrow formatted].
  by rewrite Float64.sub_diag_not_positive.
Qed.

(** X14. A run of a scenario whose shocks are all 0.0 therefore reports the
    falling chart at week 1 and at the horizon, although nothing moved. *)
Theorem zero_shock_run_points_down
    {B : Builtins} {F : ForecastModel} (st : Store) (key : string) (sc : Scenario) (N : Z) :
  oracle_contract F →
  dict_get (st_SCENARIOS st) key = Some sc →
  (1 ≤ N)%Z →
  map_Forall (λ _ v, v = 0.0%float) (shocks sc) →
  ∃ r, (run_scenario key N st).1 = inr r ∧
       arrow (impact_week1 r) = chart_down ∧
       arrow (impact_week12 r) = chart_down.
Proof.
  intros Horacle Hget HN Hzero.
  destruct (run_scenario_returns st key sc N Horacle Hget HN)
    as (p0 & p1 & b1 & s1 & bN & sN & Hp0 & Hp1 & _ & _ & Hb1 & Hs1 & HbN & HsN & ->).
  unfold exog_frame in Hp0, Hp1. rewrite (shocked_row_all_zero _ _ Hzero) in Hp1.
  assert (p1 = p0) as -> by congruence.
  assert (s1 = b1) as -> by congruence. assert (sN = bN) as -> by congruence.
  eexists. split; [reflexivity |]. cbn [impact_week1 impact_week12].
  unfold format_price_change. cbn [arrow].
  by rewrite !Float64.sub_diag_not_positive.
Qed.

Lemma zero_shock_run_points_down_witness :
  ∃ r, (run_scenario (B := Stub.stub_builtins) (F := Stub.stub_model)
          "no_op" 3 Stub.no_op_store).1 = inr r ∧
       arrow (impact_week12 r) = chart_down.
Proof.
  destruct (zero_shock_run_points_down (B := Stub.stub_builtins) (F := Stub.stub_model)
              Stub.no_op_store "no_op" Stub.no_op 3
              stub_model_contract eq_refl ltac:(lia))
    as (r & Hr & _ & Hdown).
  - unfold Stub.no_op. cbn [shocks].
    apply map_Forall_insert_2; [reflexivity |].
    apply map_Forall_insert_2; [reflexivity |].
    apply map_Forall_empty.
  - by exists r.
Defined.

(* ===================================================================== *)
(** ** The baseline snapshot                                              *)
(* ===================================================================== *)

Lemma index_of_None (col : string) (cols : list string) :
  index_of col cols = None ↔ col ∉ cols.
Proof.
  induction cols as [| c cols IH]; cbn.
  - split; [intros _; apply not_elem_of_nil | done].
  - rewrite not_elem_of_cons. destruct (String.eqb_spec col c) as [-> | Hne].
    + split; [done | by intros [? _]].
    + destruct (index_of col cols); cbn.
      * split; [done |]. intros [_ Hnotin]. by apply IH in Hnotin.
      * split; [intros _; split; [done | by apply IH] | done].
Qed.

Lemma iloc_minus_one (s : list float) :
  iloc s (-1)
  = match last s with
    | Some x => inr x
    | None => inl (IndexError "single positional indexer is out-of-bounds")
    end.
Proof.
  destruct (last s) as [x |] eqn:Hlast.
  - apply iloc_last. rewrite last_lookup in Hlast.
    by replace (length s - 1)%nat with (pred (length s)) by lia.
  - apply last_None in Hlast as ->. apply iloc_empty.
Qed.

(** [df[col].iloc[-1]]: the entry of the last row under that label. *)
Lemma latest_of_run (df : DataFrame) (col : string) :
  utils.latest_of df col
  = match index_of col (columns df) with
    | None => inl (KeyError col)
    | Some j =>
        match last (rows df) with
        | Some row => inr (default nan (row !! j))
        | None => inl (IndexError "single positional indexer is out-of-bounds")
        end
    end.
Proof.
  unfold utils.latest_of, df_getitem.
  destruct (index_of col (columns df)) as [j |]; [| done].
  cbn [and_then]. rewrite iloc_minus_one.
  change (map ?f (rows df)) with (f <$> rows df). rewrite fmap_last.
  by destruct (last (rows df)).
Qed.

Lemma latest_of_inr (df : DataFrame) (col : string) :
  (∃ x, utils.latest_of df col = inr x) ↔ col ∈ columns df ∧ rows df ≠ [].
Proof.
  rewrite latest_of_run.
  destruct (index_of col (columns df)) as [j |] eqn:Hj.
  - assert (col ∈ columns df).
    { destruct (decide (col ∈ columns df)) as [? | Hnotin]; [done |].
      apply index_of_None in Hnotin. congruence. }
    destruct (last (rows df)) as [row |] eqn:Hlast.
    + split; [| by eauto]. intros _. split; [done |].
      intros Hnil. by rewrite Hnil in Hlast.
    + apply last_None in Hlast. split; [by intros [? ?] | by intros [_ ?]].
  - apply index_of_None in Hj. split; [by intros [? ?] | by intros [? _]].
Qed.

Lemma latest_of_only_row (df : DataFrame) (col : string) (row : list float) :
  last (rows df) = Some row →
  utils.latest_of df col = utils.latest_of (only_row df row) col.
Proof.
  intros Hlast. rewrite !latest_of_run. cbn [only_row columns rows last].
  by rewrite Hlast.
Qed.

(** X15. The snapshot is read off the last row of each frame and off nothing
    else: cutting either frame down to its last row gives the same snapshot
    or the same exception. *)
Theorem latest_values_from_last_rows
    (weekly_data transformed_data : DataFrame) (last_weekly last_transformed : list float) :
  last (rows weekly_data) = Some last_weekly →
  last (rows transformed_data) = Some last_transformed →
  utils.get_latest_values weekly_data transformed_data
  = utils.get_latest_values (only_row weekly_data last_weekly)
                            (only_row transformed_data last_transformed).
Proof.
  intros Hw Ht. unfold utils.get_latest_values.
  rewrite !(latest_of_only_row weekly_data _ last_weekly Hw).
  by rewrite !(latest_of_only_row transformed_data _ last_transformed Ht).
Qed.

Lemma latest_values_from_last_rows_witness :
  ∃ latest, utils.get_latest_values Stub.weekly0 Stub.transformed0 = inr latest ∧
            brent_price latest = 75%float ∧ vix_diff latest = 0.5%float.
Proof.
  rewrite (latest_values_from_last_rows Stub.weekly0 Stub.transformed0
             [75; 430000; 103; 120; 5.25; 16]%float
             [0.01; 0.001; 0.0005; -0.01; 0; 0.5]%float eq_refl eq_refl).
  eexists. split; [vm_compute; reflexivity |]. split; reflexivity.
Defined.

Lemma latest_of_inl (df : DataFrame) (col : string) (e : exn) :
  utils.latest_of df col = inl e →
  e = KeyError col ∨ e = IndexError "single positional indexer is out-of-bounds".
Proof.
  rewrite latest_of_run.
  destruct (index_of col (columns df)); [| intros [= <-]; by left].
  destruct (last (rows df)); [done | intros [= <-]; by right].
Qed.

(** X16. Building the snapshot succeeds exactly when the raw frame has the
    six raw columns and at least one row and the transformed frame has the
    six transformed columns and at least one row.  When it fails, it fails
    with the [KeyError] of one of those twelve labels or with the
    [IndexError] of reading the last row of an empty frame. *)
Theorem latest_values_returns_iff (weekly_data transformed_data : DataFrame) :
  ((∃ latest, utils.get_latest_values weekly_data transformed_data = inr latest) ↔
   (∀ col, col ∈ weekly_columns → col ∈ columns weekly_data) ∧
   rows weekly_data ≠ [] ∧
   (∀ col, col ∈ transformed_columns → col ∈ columns transformed_data) ∧
   rows transformed_data ≠ []) ∧
  (∀ e, utils.get_latest_values weekly_data transformed_data = inl e →
        (∃ col, e = KeyError col ∧ col ∈ weekly_columns ++ transformed_columns) ∨
        e = IndexError "single positional indexer is out-of-bounds").
Proof.
  split; [split |].
  - intros [latest Hlatest]. unfold utils.get_latest_values in Hlatest.
    repeat match type of Hlatest with
           | and_then (utils.latest_of ?df ?col) _ = _ =>
               let H := fresh "Hcol" in
               destruct (utils.latest_of df col) as [? | ?] eqn:H;
               [discriminate Hlatest |];
               cbn [and_then] in Hlatest;
               apply (λ p, proj1 (latest_of_inr df col) (ex_intro _ _ p)) in H
           end.
    repeat match goal with H : _ ∈ _ ∧ _ ≠ [] |- _ => destruct H end.
    split; [| split; [done | split; [| done]]].
    + intros col Hin. unfold weekly_columns in Hin.
      repeat (apply elem_of_cons in Hin as [-> | Hin]; [done |]).
      by apply elem_of_nil in Hin.
    + intros col Hin. unfold transformed_columns in Hin.
      repeat (apply elem_of_cons in Hin as [-> | Hin]; [done |]).
      by apply elem_of_nil in Hin.
  - intros (Hw & Hwrows & Ht & Htrows). unfold utils.get_latest_values.
    repeat match goal with
           | |- ∃ _, and_then (utils.latest_of weekly_data ?col) _ = _ =>
               let x := fresh "x" in let H := fresh "H" in
               destruct (proj2 (latest_of_inr weekly_data col)) as [x H];
               [split; [apply Hw; unfold weekly_columns; set_solver | done] |];
               rewrite H; cbn [and_then]; clear H
           | |- ∃ _, and_then (utils.latest_of transformed_data ?col) _ = _ =>
               let x := fresh "x" in let H := fresh "H" in
               destruct (proj2 (latest_of_inr transformed_data col)) as [x H];
               [split; [apply Ht; unfold transformed_columns; set_solver | done] |];
               rewrite H; cbn [and_then]; clear H
           end.
    by eexists.
  - intros e He. unfold utils.get_latest_values in He.
    repeat match type of He with
           | and_then (utils.latest_of ?df ?col) _ = _ =>
               let H := fresh "Hcol" in
               destruct (utils.latest_of df col) as [? | ?] eqn:H;
               [cbn [and_then] in He; injection He as ->;
                apply latest_of_inl in H as [-> | ->];
                [left; eexists; split; [reflexivity |];
                 unfold weekly_columns, transformed_columns; set_solver
                | by right]
               | cbn [and_then] in He; clear H]
           end.
    discriminate He.
Qed.

Lemma latest_values_returns_iff_witness :
  utils.get_latest_values {| columns := ["brent"; "vix"]; rows := [[75; 16]%float] |}
                          Stub.transformed0
  = inl (KeyError "inventories").
Proof.
  destruct (utils.get_latest_values
              {| columns := ["brent"; "vix"]; rows := [[75; 16]%float] |}
              Stub.transformed0) as [e | latest] eqn:Hrun.
  - vm_compute in Hrun. by injection Hrun as <-.
  - exfalso.
    destruct (latest_values_returns_iff
                {| columns := ["brent"; "vix"]; rows := [[75; 16]%float] |}
                Stub.transformed0) as [[Hcols _] _].
    destruct (Hcols (ex_intro _ latest Hrun)) as (Hw & _).
    specialize (Hw "inventories" ltac:(unfold weekly_columns; set_solver)).
    cbn [columns] in Hw. set_solver.
Defined.

(* ===================================================================== *)
(** ** The parser's validation                                            *)
(* ===================================================================== *)

Lemma dict_get_set_eq {V} (d : dict V) (k : string) (v : V) :
  dict_get (dict_set d k v) k = Some v.
Proof.
  induction d as [| [k' v'] d IH]; cbn.
  - by rewrite String.eqb_refl.
  - destruct (String.eqb k k') eqn:Hk; cbn; rewrite Hk; [done | exact IH].
Qed.

Lemma dict_get_set_ne {V} (d : dict V) (k k' : string) (v : V) :
  k ≠ k' → dict_get (dict_set d k v) k' = dict_get d k'.
Proof.
  intros Hne. induction d as [| [k0 v0] d IH]; cbn.
  - by rewrite (proj2 (String.eqb_neq k' k)).
  - destruct (String.eqb_spec k k0) as [-> | Hk]; cbn.
    + by rewrite (proj2 (String.eqb_neq k' k0)).
    + destruct (String.eqb k' k0); [done | exact IH].
Qed.

Lemma dict_set_same {V} (d : dict V) (k : string) (v : V) :
  dict_get d k = Some v → dict_set d k v = d.
Proof.
  induction d as [| [k' v'] d IH]; [done |].
  cbn. destruct (String.eqb_spec k k') as [-> | Hk].
  - by intros [= ->].
  - intros Hget. f_equal. by apply IH.
Qed.

Lemma available_is_in_catalog (s : string) :
  dict_mem llm_explainer.AVAILABLE_SCENARIOS s = true → dict_mem SCENARIOS s = true.
Proof.
  unfold dict_mem, llm_explainer.AVAILABLE_SCENARIOS, SCENARIOS. cbn [dict_get].
  by repeat destruct (String.eqb s _).
Qed.

Section Validation.
Import llm_explainer.

(** The last step of the validation on a dict. *)
Lemma validate_context (user_query : string) (members : dict json) :
  and_then (get (JObj members) "scenario_context")
    (λ scenario_context,
       inr (if truthy scenario_context then JObj members
            else setitem (JObj members) "scenario_context" (JStr user_query)))
  = inr (JObj (if truthy (default JNull (dict_get members "scenario_context"))
               then members
               else dict_set members "scenario_context" (JStr user_query))).
Proof.
  cbn [get and_then setitem].
  by destruct (truthy (default JNull (dict_get members "scenario_context"))).
Qed.

(** What every validated answer looks like. *)
Lemma validate_post (user_query : string) (parsed parsed' : json) :
  validate user_query parsed = inr parsed' →
  ∃ members s,
    parsed' = JObj members ∧
    dict_get members "scenario_key" = Some (JStr s) ∧
    dict_mem AVAILABLE_SCENARIOS s = true ∧
    (truthy (default JNull (dict_get members "scenario_context")) = true ∨
     dict_get members "scenario_context" = Some (JStr user_query)).
Proof.
  unfold validate. destruct parsed as [| b | n | x | s0 | items | members]; try done.
  cbn [get and_then].
  destruct (in_available (default JNull (dict_get members "scenario_key")))
    as [e | known] eqn:Hknown; [done |].
  cbn [and_then].
  set (accepted :=
         if known then JObj members
         else setitem (setitem (setitem (JObj members)
                "scenario_key" (JStr "geopolitical_tension"))
                "confidence" (JStr "low"))
                "scenario_context" (JStr user_query)).
  assert (Haccepted : ∃ m s, accepted = JObj m ∧
            dict_get m "scenario_key" = Some (JStr s) ∧
            dict_mem AVAILABLE_SCENARIOS s = true).
  { subst accepted. destruct known.
    - destruct (dict_get members "scenario_key") as [[| | | | s | |] |] eqn:Hkey;
        cbn in Hknown; try discriminate Hknown.
      injection Hknown as Hmem. by exists members, s.
    - cbn [setitem]. eexists _, "geopolitical_tension". split; [reflexivity |].
      split; [| reflexivity].
      rewrite !dict_get_set_ne by discriminate. apply dict_get_set_eq. }
  destruct Haccepted as (m & s & -> & Hkey & Hmem).
  rewrite validate_context. intros [= <-].
  destruct (truthy (default JNull (dict_get m "scenario_context"))) eqn:Htruthy.
  - exists m, s. auto.
  - exists (dict_set m "scenario_context" (JStr user_query)), s.
    split; [done |]. split; [by rewrite dict_get_set_ne by discriminate |].
    split; [done |]. right. apply dict_get_set_eq.
Qed.

(** X17. Whatever the model answered, a query that [parse_user_query]
    returns for names a scenario of the catalog: the returned value is a
    dict whose [scenario_key] is a string and one of the catalog's five
    keys, so the endpoint's lookup of the stored shocks cannot miss. *)
Theorem parsed_key_is_in_catalog {C : Completion} (user_query : string) (parsed : json) :
  parse_user_query user_query = inr parsed →
  ∃ members s,
    parsed = JObj members ∧
    dict_get members "scenario_key" = Some (JStr s) ∧
    dict_mem SCENARIOS s = true.
Proof.
  unfold parse_user_query.
  destruct (decoded_answer user_query) as [e | answer]; cbn [and_then].
  - destruct (is_decode_error e); [| done]. intros [= <-].
    by eexists _, "geopolitical_tension".
  - destruct (validate user_query answer) as [e | validated] eqn:Hvalidate.
    + destruct (is_decode_error e); [| done]. intros [= <-].
      by eexists _, "geopolitical_tension".
    + intros [= <-].
      destruct (validate_post _ _ _ Hvalidate) as (members & s & -> & Hkey & Hmem & _).
      exists members, s. split; [done |]. split; [done |].
      by apply available_is_in_catalog.
Qed.

(** X18. Validation is idempotent: validating an answer that was already
    validated for the same query returns it unchanged. *)
Theorem validate_idempotent (user_query : string) (parsed parsed' : json) :
  validate user_query parsed = inr parsed' →
  validate user_query parsed' = inr parsed'.
Proof.
  intros Hvalidate.
  destruct (validate_post _ _ _ Hvalidate) as (members & s & -> & Hkey & Hmem & Hcontext).
  unfold validate. cbn [get and_then]. rewrite Hkey.
  change (default JNull (Some (JStr s))) with (JStr s). cbn [in_available and_then].
  rewrite Hmem. cbn [and_then]. rewrite validate_context.
  destruct Hcontext as [-> | Hcontext]; [done |].
  destruct (truthy (default JNull (dict_get members "scenario_context"))); [done |].
  by rewrite dict_set_same.
Qed.

End Validation.

Lemma parsed_key_is_in_catalog_witness :
  llm_explainer.parse_user_query
    (C := Stub.stub_completion
            (inr (llm_explainer.JObj
                    [("scenario_key", llm_explainer.JStr "oil_gods");
                     ("magnitude_modifier", llm_explainer.JFloat 2)])))
    "What if the oil gods are angry?"
  = inr (llm_explainer.JObj
           [("scenario_key", llm_explainer.JStr "geopolitical_tension");
            ("magnitude_modifier", llm_explainer.JFloat 2);
            ("confidence", llm_explainer.JStr "low");
            ("scenario_context", llm_explainer.JStr "What if the oil gods are angry?")]).
Proof.
  destruct (llm_explainer.parse_user_query
              (C := Stub.stub_completion
                      (inr (llm_explainer.JObj
                              [("scenario_key", llm_explainer.JStr "oil_gods");
                               ("magnitude_modifier", llm_explainer.JFloat 2)])))
              "What if the oil gods are angry?") as [e | parsed] eqn:Hparse.
  - vm_compute in Hparse. discriminate Hparse.
  - destruct (parsed_key_is_in_catalog _ _ Hparse) as (members & s & -> & _ & _).
    vm_compute in Hparse. by injection Hparse as <-.
Defined.

Lemma validate_idempotent_witness :
  llm_explainer.validate "q"
    (llm_explainer.JObj
       [("scenario_key", llm_explainer.JStr "geopolitical_tension");
        ("confidence", llm_explainer.JStr "low");
        ("scenario_context", llm_explainer.JStr "q")])
  = inr (llm_explainer.JObj
           [("scenario_key", llm_explainer.JStr "geopolitical_tension");
            ("confidence", llm_explainer.JStr "low");
            ("scenario_context", llm_explainer.JStr "q")]).
Proof.
  apply (validate_idempotent "q" (llm_explainer.JObj [("scenario_key", llm_explainer.JInt 7)])).
  reflexivity.
Defined.

(* ===================================================================== *)
(** ** The endpoint and the interactive loop                              *)
(* ===================================================================== *)

Section TwoFrontEnds.
Context {B : Builtins} {F : ForecastModel} {E : Explainer}.

Lemma overwrite_restore_map {A C} (key : string) (scaled original : gmap string float)
    (m : M A) (k : A → C) (st : Store) :
  (set_shocks key scaled ;;; (r <- m ;; (set_shocks key original ;;; ret (k r)))) st
  = match (set_shocks key scaled ;;; (r <- m ;; (set_shocks key original ;;; ret r))) st with
    | (inl e, st') => (inl e, st')
    | (inr r, st') => (inr (k r), st')
    end.
Proof.
  unfold bind, ret.
  destruct (set_shocks key scaled st) as [[e | []] st1]; [done |].
  destruct (m st1) as [[e | r] st2]; [done |].
  by destruct (set_shocks key original st2) as [[e | []] st3].
Qed.

(** X19. For the same parsed query and the same horizon, the endpoint and
    the interactive loop do the same thing: they leave the same store (the
    same catalog, the same journal of overwrites, matrix builds and oracle
    calls) and they fail with the same exception or obtain the same engine
    result.  The in-place scaling of the deep copy and the dict comprehension
    are one computation. *)
Theorem endpoint_and_loop_agree
    (request : app.ScenarioRequest) (parsed : ParsedQuery) (st : Store) :
  parse_user_query (app.query request) = inr parsed →
  default (app.forecast_weeks request) (p_forecast_weeks parsed)
  = default 12%Z (p_forecast_weeks parsed) →
  app.run_simulation_body request st
  = match test.run_interactive_body parsed st with
    | (inl e, st') => (inl e, st')
    | (inr r, st') =>
        (inr {| app.result := r;
                app.shocks_applied := r_shocks r |}, st')
    end.
Proof.
  intros Hparse Hweeks.
  pose proof (run_simulation_body_run request st) as Hbody.
  pose proof (run_interactive_body_run parsed st) as Hloop.
  rewrite Hparse in Hbody. cbv zeta in Hbody, Hloop. rewrite Hweeks in Hbody.
  destruct (dict_get (st_SCENARIOS st) (p_scenario_key parsed)) as [sc |] eqn:Hget.
  2: { by rewrite Hbody, Hloop. }
  rewrite Hbody, Hloop. rewrite overwrite_restore_map.
  set (scaled := app.modified_shocks (default 1.0%float (p_magnitude_modifier parsed))
                                     (shocks sc)).
  destruct ((set_shocks (p_scenario_key parsed) scaled ;;;
             (r <- run_scenario (p_scenario_key parsed)
                     (default 12%Z (p_forecast_weeks parsed)) ;;
              (set_shocks (p_scenario_key parsed) (shocks sc) ;;; ret r))) st)
    as [[e | r] st'] eqn:Hrun; [done |].
  f_equal. f_equal. f_equal.
  (* the engine's result carries the shocks it read: the scaled ones *)
  unfold bind at 1 in Hrun. rewrite (set_shocks_run _ scaled st sc Hget) in Hrun.
  unfold bind at 1 in Hrun.
  destruct (run_scenario (p_scenario_key parsed) (default 12%Z (p_forecast_weeks parsed))
              (overwritten st (p_scenario_key parsed) scaled))
    as [[e | r'] st2] eqn:Hengine; [done |].
  destruct (run_scenario_inr _ _ _ _ _ Hengine)
    as (sc' & _ & _ & Hget' & _ & _ & Hshocks & _).
  cbn [overwritten st_SCENARIOS] in Hget'. rewrite dict_get_alter, Hget in Hget'.
  injection Hget' as <-. cbn [shocks] in Hshocks.
  unfold bind, ret in Hrun.
  destruct (set_shocks (p_scenario_key parsed) (shocks sc) st2) as [[e | []] st3];
    [done |].
  injection Hrun as <- _. done.
Qed.

End TwoFrontEnds.

Lemma endpoint_and_loop_agree_witness :
  ∃ r st',
    test.run_interactive_body (B := Stub.stub_builtins) (F := Stub.stub_model)
      Stub.double_opec Stub.store0 = (inr r, st') ∧
    app.run_simulation_body (B := Stub.stub_builtins) (F := Stub.stub_model)
      (E := Stub.stub_explainer Stub.double_opec) Stub.request0 Stub.store0
    = (inr {| app.result := r; app.shocks_applied := r_shocks r |}, st').
Proof.
  pose proof (endpoint_and_loop_agree (B := Stub.stub_builtins) (F := Stub.stub_model)
                (E := Stub.stub_explainer Stub.double_opec)
                Stub.request0 Stub.double_opec Stub.store0 eq_refl eq_refl) as Hagree.
  destruct (test.run_interactive_body (B := Stub.stub_builtins) (F := Stub.stub_model)
              Stub.double_opec Stub.store0) as [[e | r] st'] eqn:Hloop.
  - vm_compute in Hloop. discriminate Hloop.
  - exists r, st'. split; [reflexivity | exact Hagree].
Defined.

(* ===================================================================== *)
(** ** A query at zero magnitude                                          *)
(* ===================================================================== *)

Section ZeroMagnitude.
Context {B : Builtins} {F : ForecastModel} {E : Explainer}.

(** What a returned call of the endpoint ran. *)
Lemma run_simulation_inr (request : app.ScenarioRequest) (st st' : Store)
    (parsed : ParsedQuery) (sc : Scenario) (sim : app.Simulation) :
  parse_user_query (app.query request) = inr parsed →
  dict_get (st_SCENARIOS st) (p_scenario_key parsed) = Some sc →
  app.run_simulation request st = (inr sim, st') →
  ∃ st2,
    run_scenario (p_scenario_key parsed)
      (default (app.forecast_weeks request) (p_forecast_weeks parsed))
      (overwritten st (p_scenario_key parsed)
         (app.modified_shocks (default 1.0%float (p_magnitude_modifier parsed)) (shocks sc)))
    = (inr (app.result sim), st2).
Proof.
  intros Hparse Hget Hrun. rewrite run_simulation_handlers in Hrun.
  rewrite (run_simulation_body_known request st parsed sc Hparse Hget) in Hrun.
  cbv zeta in Hrun. unfold bind at 1 in Hrun.
  rewrite (set_shocks_run _ _ st sc Hget) in Hrun. unfold bind at 1 in Hrun.
  destruct (run_scenario _ _ (overwritten _ _ _)) as [[e | r] st2]; [done |].
  exists st2. unfold bind, ret in Hrun.
  destruct (set_shocks (p_scenario_key parsed) (shocks sc) st2) as [[e | []] st3];
    [done |].
  by injection Hrun as <- _.
Qed.

(** X20. A query at magnitude 0.0 gives back the baseline: when no stored
    shock of the scenario is NaN or infinite and no driver of the snapshot is
    the negative zero, every call of the endpoint that returns has a shocked
    forecast equal to its baseline forecast. *)
Theorem simulate_at_zero_magnitude
    (request : app.ScenarioRequest) (st st' : Store) (parsed : ParsedQuery) (sc : Scenario)
    (sim : app.Simulation) :
  parse_user_query (app.query request) = inr parsed →
  p_magnitude_modifier parsed = Some 0.0%float →
  dict_get (st_SCENARIOS st) (p_scenario_key parsed) = Some sc →
  finite_shocks (shocks sc) →
  Forall (λ x, x ≠ neg_zero)
         [dollar_return (st_latest st); indpro_return (st_latest st);
          inventory_pct (st_latest st); fed_funds_diff (st_latest st);
          vix_diff (st_latest st)] →
  app.run_simulation request st = (inr sim, st') →
  shocked_forecast (app.result sim) = baseline_forecast (app.result sim).
Proof.
  intros Hparse Hmod Hget Hfinite Hlatest Hrun.
  destruct (run_simulation_inr request st st' parsed sc sim Hparse Hget Hrun)
    as [st2 Hengine].
  rewrite Hmod in Hengine. cbn [default] in Hengine.
  destruct (run_scenario_inr _ _ _ _ _ Hengine)
    as (sc' & p0 & p1 & Hget' & Hp0 & Hp1 & _ & _ & _ & -> & -> & _).
  cbn [overwritten st_SCENARIOS st_latest] in Hget', Hp0, Hp1.
  rewrite dict_get_alter, Hget in Hget'. injection Hget' as <-. cbn [shocks] in Hp1.
  unfold exog_frame in Hp0, Hp1.
  rewrite (shocked_row_signed_zero (st_latest st) (app.modified_shocks 0.0 (shocks sc)))
    in Hp1; [congruence | | done].
  intros k v. unfold app.modified_shocks. rewrite lookup_fmap.
  destruct (shocks sc !! k) as [v0 |] eqn:Hk; [| done]. intros [= <-].
  apply Float64.mul_zero_r_signed. by apply (Hfinite k).
Qed.

End ZeroMagnitude.

Lemma simulate_at_zero_magnitude_witness :
  ∃ sim st',
    app.run_simulation (B := Stub.stub_builtins) (F := Stub.stub_model)
      (E := Stub.stub_explainer Stub.silent_opec) Stub.request0 Stub.store0 = (inr sim, st') ∧
    shocked_forecast (app.result sim) = baseline_forecast (app.result sim).
Proof.
  destruct (app.run_simulation (B := Stub.stub_builtins) (F := Stub.stub_model)
              (E := Stub.stub_explainer Stub.silent_opec) Stub.request0 Stub.store0)
    as [[e | sim] st'] eqn:Hrun.
  - vm_compute in Hrun. discriminate Hrun.
  - exists sim, st'. split; [done |].
    apply (simulate_at_zero_magnitude (B := Stub.stub_builtins) (F := Stub.stub_model)
             (E := Stub.stub_explainer Stub.silent_opec)
             Stub.request0 Stub.store0 st' Stub.silent_opec
             {| name := "OPEC Production Cut (10%)";
                description := "OPEC announces a coordinated 10% production cut. Supply tightens, inventories draw down, risk sentiment improves.";
                shocks := Stub.opec_shocks |} sim eq_refl eq_refl eq_refl).
    + apply opec_shocks_finite.
    + repeat (apply Forall_cons; split;
                [first [apply Float64.not_neg_zero; vm_compute; reflexivity
                       | apply Float64.nonzero_not_neg_zero; vm_compute; reflexivity] |]).
      apply Forall_nil_2.
    + exact Hrun.
Defined.
